(** * WeatherApp: the fetch-and-merge routine of [src/WeatherApp.tsx]

    A shallow embedding of the effect run by the [WeatherApp] component when
    it mounts: [getLocation] reads the browser's positioning capability and
    hands the coordinates to [fetchWeatherData], which issues three HTTP
    requests one after the other and merges the three JSON bodies into one
    [WeatherData] object.

    TypeScript's types are erased before the program runs and
    [response.json()] has type [any], so the merge is modelled on untyped
    JavaScript values: a property read on [undefined] or [null] throws, a
    property read of a missing key yields [undefined], an index past the
    end of an array yields [undefined]. *)

From Stdlib Require Import Floats.
From stdpp Require Import gmap strings list pretty.

Set Warnings "-register-all,-inexact-float".

Local Open Scope string_scope.

(** ** JavaScript values and completions *)

(** A [number] is an IEEE binary64, a JSON object is a finite map from
    property names to values.  Strings are sequences of 8-bit units here;
    the program only copies and compares them. *)
Inductive value : Type :=
| VUndefined
| VNull
| VBool (b : bool)
| VNum (x : float)
| VStr (s : string)
| VArr (l : list value)
| VObj (m : gmap string value).

Inductive exn : Type :=
| TypeError
| SyntaxError
| Error (message : string).

(** The outcome of evaluating an expression: a value, or a thrown exception. *)
Inductive completion (A : Type) : Type :=
| Normal (a : A)
| Throw (e : exn).
Arguments Normal {A} a.
Arguments Throw {A} e.

#[global] Instance completion_ret : MRet completion := @Normal.
#[global] Instance completion_bind : MBind completion := λ A B k c,
  match c with
  | Normal a => k a
  | Throw e => Throw e
  end.

(** [undefined] and [null] have no properties. *)
Definition nullish (v : value) : bool :=
  match v with
  | VUndefined | VNull => true
  | _ => false
  end.

(** [v.k] for a property name [k] that no built-in prototype defines, which
    is the case of every name the program reads with a dot
    ([current_weather], [temperature], [windspeed], [daily], [hourly],
    [time], [temperature_2m_max], [temperature_2m_min], [temperature_2m],
    [sunrise], [sunset], [city], [countryName]): only an object parsed from
    JSON can hold it. *)
Definition get_prop (v : value) (k : string) : completion value :=
  match v with
  | VUndefined | VNull => Throw TypeError
  | VObj m => Normal (default VUndefined (m !! k))
  | VBool _ | VNum _ | VStr _ | VArr _ => Normal VUndefined
  end.

(** [v[i]] for a non-negative integer [i]: an array element, a one-unit
    string, or the property named by the decimal numeral of [i]. *)
Definition get_index (v : value) (i : nat) : completion value :=
  match v with
  | VUndefined | VNull => Throw TypeError
  | VArr l => Normal (default VUndefined (l !! i))
  | VStr s =>
      Normal match String.get i s with
             | Some c => VStr (String c EmptyString)
             | None => VUndefined
             end
  | VObj m => Normal (default VUndefined (m !! (pretty i : string)))
  | VBool _ | VNum _ => Normal VUndefined
  end.

(** ToBoolean. *)
Definition to_boolean (v : value) : bool :=
  match v with
  | VUndefined | VNull => false
  | VBool b => b
  | VNum x => negb (PrimFloat.eqb x 0 || PrimFloat.is_nan x)
  | VStr s => negb (String.eqb s "")
  | VArr _ | VObj _ => true
  end.

(** [a || b], both operands already evaluated ([b] is a literal in the
    program). *)
Definition js_or (a b : value) : value :=
  if to_boolean a then a else b.

(** [Array.prototype.map] on an array parsed from JSON (no holes): the
    callback receives the element and its index, in index order. *)
Fixpoint map_from {A : Type} (f : value → nat → completion A)
    (i : nat) (l : list value) : completion (list A) :=
  match l with
  | [] => Normal []
  | x :: l' =>
      y ← f x i;
      ys ← map_from f (S i) l';
      Normal (y :: ys)
  end.

(** [v.map(f)]: only an array has a callable [map]. *)
Definition array_map {A : Type} (v : value) (f : value → nat → completion A)
    : completion (list A) :=
  match v with
  | VArr l => map_from f 0 l
  | _ => Throw TypeError
  end.

(** ** The view model: [interface WeatherData] *)

Record Current : Type := {
  temperature : value;
  windSpeed : value;
  humidity : value;
  uvIndex : value;
  pressure : value;
  condition : value;
}.

Record DailyEntry : Type := {
  date : value;
  temperatureMax : value;
  temperatureMin : value;
  daily_condition : value;
}.

Record HourlyEntry : Type := {
  time : value;
  hourly_temperature : value;
  hourly_condition : value;
}.

Record Forecast : Type := {
  daily : list DailyEntry;
  hourly : list HourlyEntry;
}.

Record Location : Type := {
  name : value;
  country : value;
}.

Record Astronomy : Type := {
  sunrise : value;
  sunset : value;
  dawn : value;
  dusk : value;
}.

Record WeatherData : Type := {
  current : Current;
  forecast : Forecast;
  location : Location;
  astronomy : Astronomy;
}.

(** The object literal bound to [mappedWeatherData], its property
    initialisers evaluated in source order. *)
Definition mappedWeatherData
    (currentWeatherData forecastData locationData : value)
    : completion WeatherData :=
  cw ← get_prop currentWeatherData "current_weather";
  cur_temperature ← get_prop cw "temperature";
  cw' ← get_prop currentWeatherData "current_weather";
  cur_windSpeed ← get_prop cw' "windspeed";
  fd ← get_prop forecastData "daily";
  times ← get_prop fd "time";
  days ← array_map times (λ time index,
    d1 ← get_prop forecastData "daily";
    maxs ← get_prop d1 "temperature_2m_max";
    tmax ← get_index maxs index;
    d2 ← get_prop forecastData "daily";
    mins ← get_prop d2 "temperature_2m_min";
    tmin ← get_index mins index;
    Normal {| date := time;
              temperatureMax := tmax;
              temperatureMin := tmin;
              daily_condition := VStr "Clear" |});
  fh ← get_prop forecastData "hourly";
  htimes ← get_prop fh "time";
  hours ← array_map htimes (λ time index,
    h1 ← get_prop forecastData "hourly";
    temps ← get_prop h1 "temperature_2m";
    temp ← get_index temps index;
    Normal {| time := time;
              hourly_temperature := temp;
              hourly_condition := VStr "Clear" |});
  city ← get_prop locationData "city";
  countryName ← get_prop locationData "countryName";
  d3 ← get_prop forecastData "daily";
  rises ← get_prop d3 "sunrise";
  rise0 ← get_index rises 0;
  d4 ← get_prop forecastData "daily";
  sets ← get_prop d4 "sunset";
  set0 ← get_index sets 0;
  Normal {|
    current := {| temperature := cur_temperature;
                  windSpeed := cur_windSpeed;
                  humidity := VNum 0;
                  uvIndex := VNum 0;
                  pressure := VNum 0;
                  condition := VStr "Clear" |};
    forecast := {| daily := days; hourly := hours |};
    location := {| name := js_or city (VStr "Unknown");
                   country := js_or countryName (VStr "Unknown") |};
    astronomy := {| sunrise := rise0;
                    sunset := set0;
                    dawn := VStr "";
                    dusk := VStr "" |};
  |}.

(** ** The browser *)

(** A [Response]: its [ok] flag, and what its [json()] promise settles to
    ([None]: the body is not JSON and the promise rejects). *)
Record Response : Type := {
  ok : bool;
  body : option value;
}.

(** What the promise returned by [fetch] settles to. *)
Inductive FetchResult : Type :=
| Rejected
| Resolved (r : Response).

(** What [getCurrentPosition] does with its two callbacks. *)
Inductive PositionResult : Type :=
| PositionFix (latitude longitude : float)
| PositionError
| PositionPending.

(** The ambient services of one session.  [geolocation] is
    [navigator.geolocation] ([None] when the browser has none), [fetch]
    answers a URL, [number_to_string] is the engine's conversion of a number
    inside a template literal, and [now] is the clock behind [new Date()],
    which only the rendering reads. *)
Record Host : Type := {
  geolocation : option PositionResult;
  fetch : string → FetchResult;
  number_to_string : float → string;
  now : float;
}.

(** ** Component state *)

(** The three [useState] slots. *)
Record AppState : Type := {
  weatherData : option WeatherData;
  loading : bool;
  error : option string;
}.

Inductive LogEntry : Type :=
| LogException (label : string) (e : exn)
| LogPositionError (label : string).

(** The component state together with what the session did to the outside:
    the URLs passed to [fetch], oldest first, and the [console.error]
    calls. *)
Record Sys : Type := {
  ui : AppState;
  requests : list string;
  console : list LogEntry;
}.

(** Effectful code: state passing with exceptions. *)
Definition M (A : Type) : Type := Sys → completion A * Sys.

#[global] Instance M_ret : MRet M := λ A a s, (Normal a, s).
#[global] Instance M_bind : MBind M := λ A B k m s,
  match m s with
  | (Normal a, s') => k a s'
  | (Throw e, s') => (Throw e, s')
  end.

Definition throw {A : Type} (e : exn) : M A := λ s, (Throw e, s).

Definition lift {A : Type} (c : completion A) : M A := λ s, (c, s).

Definition try_catch (block : M unit) (handler : exn → M unit) : M unit :=
  λ s,
  match block s with
  | (Normal u, s') => (Normal u, s')
  | (Throw e, s') => handler e s'
  end.

Definition setWeatherData (w : option WeatherData) : M unit := λ s,
  (Normal (),
   {| ui := {| weatherData := w;
               loading := loading (ui s);
               error := error (ui s) |};
      requests := requests s;
      console := console s |}).

Definition setLoading (b : bool) : M unit := λ s,
  (Normal (),
   {| ui := {| weatherData := weatherData (ui s);
               loading := b;
               error := error (ui s) |};
      requests := requests s;
      console := console s |}).

Definition setError (e : option string) : M unit := λ s,
  (Normal (),
   {| ui := {| weatherData := weatherData (ui s);
               loading := loading (ui s);
               error := e |};
      requests := requests s;
      console := console s |}).

Definition console_error (entry : LogEntry) : M unit := λ s,
  (Normal (),
   {| ui := ui s;
      requests := requests s;
      console := console s ++ [entry] |}).

(** [await fetch(url)]: the call is recorded, then the promise settles. *)
Definition await_fetch (h : Host) (url : string) : M Response := λ s,
  let s' := {| ui := ui s;
               requests := requests s ++ [url];
               console := console s |} in
  match fetch h url with
  | Resolved r => (Normal r, s')
  | Rejected => (Throw TypeError, s')
  end.

(** [await response.json()]. *)
Definition await_json (r : Response) : M value :=
  match body r with
  | Some v => mret v
  | None => throw SyntaxError
  end.

(** ** The three URLs *)

Definition current_weather_url (h : Host) (lat lon : float) : string :=
  "https://api.open-meteo.com/v1/forecast?latitude=" ++ number_to_string h lat
  ++ "&longitude=" ++ number_to_string h lon
  ++ "&current_weather=true&daily=temperature_2m_max,temperature_2m_min,sunrise,sunset&timezone=auto".

Definition forecast_url (h : Host) (lat lon : float) : string :=
  "https://api.open-meteo.com/v1/forecast?latitude=" ++ number_to_string h lat
  ++ "&longitude=" ++ number_to_string h lon
  ++ "&hourly=temperature_2m,weathercode&daily=temperature_2m_max,temperature_2m_min,sunrise,sunset&timezone=auto".

Definition location_url (h : Host) (lat lon : float) : string :=
  "https://api.bigdatacloud.net/data/reverse-geocode-client?latitude="
  ++ number_to_string h lat
  ++ "&longitude=" ++ number_to_string h lon
  ++ "&localityLanguage=en".

(** ** [fetchWeatherData] and [getLocation] *)

Definition fetchWeatherData (h : Host) (lat lon : float) : M unit :=
  try_catch
    (currentWeatherResponse ← await_fetch h (current_weather_url h lat lon);
     _ ← (if negb (ok currentWeatherResponse)
          then throw (Error "Failed to fetch current weather data")
          else mret ());
     currentWeatherData ← await_json currentWeatherResponse;
     forecastResponse ← await_fetch h (forecast_url h lat lon);
     _ ← (if negb (ok forecastResponse)
          then throw (Error "Failed to fetch forecast data")
          else mret ());
     forecastData ← await_json forecastResponse;
     locationResponse ← await_fetch h (location_url h lat lon);
     _ ← (if negb (ok locationResponse)
          then throw (Error "Failed to fetch location data")
          else mret ());
     locationData ← await_json locationResponse;
     mapped ← lift (mappedWeatherData currentWeatherData forecastData
                                      locationData);
     _ ← setWeatherData (Some mapped);
     setLoading false)
    (λ err,
     _ ← console_error (LogException "Error fetching weather data:" err);
     _ ← setError (Some "Failed to fetch weather data");
     setLoading false).

Definition getLocation (h : Host) : M unit :=
  match geolocation h with
  | Some (PositionFix latitude longitude) =>
      fetchWeatherData h latitude longitude
  | Some PositionError =>
      _ ← console_error (LogPositionError "Error getting location:");
      _ ← setError (Some "Failed to get location");
      setLoading false
  | Some PositionPending => mret ()
  | None =>
      _ ← setError (Some "Geolocation is not supported by this browser");
      setLoading false
  end.

(** The state the component is created with, nothing done yet. *)
Definition initial : Sys :=
  {| ui := {| weatherData := None; loading := true; error := None |};
     requests := [];
     console := [] |}.

(** The effect of mounting: [useEffect(() => { ...; getLocation(); }, [])]. *)
Definition mount (h : Host) : Sys := (getLocation h initial).2.

(** One aggregation on a freshly created component. *)
Definition aggregate (h : Host) (lat lon : float) : Sys :=
  (fetchWeatherData h lat lon initial).2.

(** What the component returns before it reaches the dashboard markup: the
    three guards at the top of the render. *)
Inductive View : Type :=
| ShowLoading
| ShowError (message : string)
| ShowNothing
| ShowDashboard (w : WeatherData).

Definition render (st : AppState) : View :=
  if loading st then ShowLoading
  else match error st with
       | Some msg =>
           if String.eqb msg "" then
             match weatherData st with
             | Some w => ShowDashboard w
             | None => ShowNothing
             end
           else ShowError msg
       | None =>
           match weatherData st with
           | Some w => ShowDashboard w
           | None => ShowNothing
           end
       end.

(** ** Vocabulary for the statements *)

(** The state every failed aggregation ends in, and the state a successful
    one ends in, when started on a fresh component. *)
Definition fetch_failed : AppState :=
  {| weatherData := None;
     loading := false;
     error := Some "Failed to fetch weather data" |}.

Definition ready (w : WeatherData) : AppState :=
  {| weatherData := Some w; loading := false; error := None |}.

(** The JSON body the [try] block gets out of one call: the call resolved,
    its status is a success, and its body parsed. *)
Definition usable_body (r : FetchResult) : option value :=
  match r with
  | Resolved r => if ok r then body r else None
  | Rejected => None
  end.

(** Index [i] of the upstream array stored under [k] in [block]. *)
Definition upstream (block : value) (k : string) (i : nat) : completion value :=
  a ← get_prop block k;
  get_index a i.

(** [v.k] as a total function: [undefined] where the read would throw. *)
Definition field (v : value) (k : string) : value :=
  match v with
  | VObj m => default VUndefined (m !! k)
  | _ => VUndefined
  end.

Definition is_array (v : value) : bool :=
  match v with
  | VArr _ => true
  | _ => false
  end.

Definition nonempty (v : value) : bool :=
  match v with
  | VArr (_ :: _) => true
  | _ => false
  end.

(** The ways the merge can throw: a property read on [undefined] or [null],
    or a [map] call on something that is not an array. *)
Definition merge_faults (cw fd ld : value) : bool :=
  nullish cw
  || nullish (field cw "current_weather")
  || nullish fd
  || nullish (field fd "daily")
  || negb (is_array (field (field fd "daily") "time"))
  || nonempty (field (field fd "daily") "time")
     && (nullish (field (field fd "daily") "temperature_2m_max")
         || nullish (field (field fd "daily") "temperature_2m_min"))
  || nullish (field fd "hourly")
  || negb (is_array (field (field fd "hourly") "time"))
  || nonempty (field (field fd "hourly") "time")
     && nullish (field (field fd "hourly") "temperature_2m")
  || nullish ld
  || nullish (field (field fd "daily") "sunrise")
  || nullish (field (field fd "daily") "sunset").

(** [v[i]] as a total function: [undefined] where the read would throw. *)
Definition item (v : value) (i : nat) : value :=
  match v with
  | VArr l => default VUndefined (l !! i)
  | VStr s =>
      match String.get i s with
      | Some c => VStr (String c EmptyString)
      | None => VUndefined
      end
  | VObj m => default VUndefined (m !! (pretty i : string))
  | _ => VUndefined
  end.

Definition elements (v : value) : list value :=
  match v with
  | VArr l => l
  | _ => []
  end.

(** The object the merge builds when nothing throws, written without
    exceptions; [mappedWeatherData_closed_form] relates it to the code. *)
Definition snapshot (cw fd ld : value) : WeatherData :=
  let d := field fd "daily" in
  let hr := field fd "hourly" in
  {| current := {| temperature := field (field cw "current_weather") "temperature";
                   windSpeed := field (field cw "current_weather") "windspeed";
                   humidity := VNum 0;
                   uvIndex := VNum 0;
                   pressure := VNum 0;
                   condition := VStr "Clear" |};
     forecast :=
       {| daily := imap (λ i t,
                     {| date := t;
                        temperatureMax := item (field d "temperature_2m_max") i;
                        temperatureMin := item (field d "temperature_2m_min") i;
                        daily_condition := VStr "Clear" |})
                     (elements (field d "time"));
          hourly := imap (λ i t,
                      {| time := t;
                         hourly_temperature := item (field hr "temperature_2m") i;
                         hourly_condition := VStr "Clear" |})
                      (elements (field hr "time")) |};
     location := {| name := js_or (field ld "city") (VStr "Unknown");
                    country := js_or (field ld "countryName") (VStr "Unknown") |};
     astronomy := {| sunrise := item (field d "sunrise") 0;
                     sunset := item (field d "sunset") 0;
                     dawn := VStr "";
                     dusk := VStr "" |} |}.

(** What one aggregation produces, as a function of the three answers. *)
Definition merged (h : Host) (lat lon : float) : option WeatherData :=
  cw ← usable_body (fetch h (current_weather_url h lat lon));
  fd ← usable_body (fetch h (forecast_url h lat lon));
  ld ← usable_body (fetch h (location_url h lat lon));
  match mappedWeatherData cw fd ld with
  | Normal w => Some w
  | Throw _ => None
  end.

(** ** Causes of failure *)

(** One call yields no usable body: the promise rejects, the status is not
    a success, or the body is not JSON. *)
Inductive CallFault (x : FetchResult) : Prop :=
| transport_error : x = Rejected → CallFault x
| bad_status (r : Response) : x = Resolved r → ok r = false → CallFault x
| bad_body (r : Response) : x = Resolved r → body r = None → CallFault x.

(** One aggregation has a cause to fail: one of its calls, or the merge of
    the three bodies. *)
Inductive RunFault (h : Host) (lat lon : float) : Prop :=
| fault_current :
    CallFault (fetch h (current_weather_url h lat lon)) → RunFault h lat lon
| fault_forecast :
    CallFault (fetch h (forecast_url h lat lon)) → RunFault h lat lon
| fault_location :
    CallFault (fetch h (location_url h lat lon)) → RunFault h lat lon
| fault_merge (cw fd ld : value) :
    usable_body (fetch h (current_weather_url h lat lon)) = Some cw →
    usable_body (fetch h (forecast_url h lat lon)) = Some fd →
    usable_body (fetch h (location_url h lat lon)) = Some ld →
    merge_faults cw fd ld = true →
    RunFault h lat lon.

(** ** Test hosts *)

Definition show_coordinate (x : float) : string :=
  if PrimFloat.eqb x 52.52 then "52.52"
  else if PrimFloat.eqb x 13.405 then "13.405"
  else "0".

(** A browser positioned at [(lat, lon)] whose network answers the three
    URLs of that coordinate with [a], [b] and [c] and nothing else. *)
Definition host_at (geo : option PositionResult) (lat lon : float)
    (a b c : FetchResult) (clock : float) : Host :=
  let stub := {| geolocation := None;
                 fetch := λ _, Rejected;
                 number_to_string := show_coordinate;
                 now := 0 |} in
  {| geolocation := geo;
     fetch := λ url,
       if String.eqb url (current_weather_url stub lat lon) then a
       else if String.eqb url (forecast_url stub lat lon) then b
       else if String.eqb url (location_url stub lat lon) then c
       else Rejected;
     number_to_string := show_coordinate;
     now := clock |}.

Definition json_ok (v : value) : FetchResult :=
  Resolved {| ok := true; body := Some v |}.

Definition obj (l : list (string * value)) : value :=
  VObj (list_to_map l).

(** The payloads of the Berlin scenario. *)
Definition berlin_current : value :=
  obj [("current_weather",
        obj [("temperature", VNum 18.4); ("windspeed", VNum 3.1)])].

Definition berlin_daily : value :=
  obj [("time", VArr [VStr "2024-06-01"; VStr "2024-06-02"]);
       ("temperature_2m_max", VArr [VNum 22; VNum 24]);
       ("temperature_2m_min", VArr [VNum 14; VNum 15]);
       ("sunrise", VArr [VStr "2024-06-01T04:45"]);
       ("sunset", VArr [VStr "2024-06-01T21:10"])].

Definition berlin_geocode : value :=
  obj [("city", VStr "Berlin"); ("countryName", VStr "Germany")].

(** The scenario exactly as listed: the forecast body has a [daily] block
    and nothing else. *)
Definition berlin_literal : Host :=
  host_at (Some (PositionFix 52.52 13.405)) 52.52 13.405
    (json_ok berlin_current)
    (json_ok (obj [("daily", berlin_daily)]))
    (json_ok berlin_geocode)
    0.

(** The scenario with an [hourly] block next to [daily]. *)
Definition berlin_with_hourly (times temps : list value) : Host :=
  host_at (Some (PositionFix 52.52 13.405)) 52.52 13.405
    (json_ok berlin_current)
    (json_ok (obj [("daily", berlin_daily);
                   ("hourly", obj [("time", VArr times);
                                   ("temperature_2m", VArr temps)])]))
    (json_ok berlin_geocode)
    0.

Definition berlin_hourly : value :=
  obj [("time", VArr [VStr "2024-06-01T00:00"; VStr "2024-06-01T01:00"]);
       ("temperature_2m", VArr [VNum 16; VNum 15])].

Definition berlin_forecast : value :=
  obj [("daily", berlin_daily); ("hourly", berlin_hourly)].

(** Every answer well formed. *)
Definition berlin : Host :=
  host_at (Some (PositionFix 52.52 13.405)) 52.52 13.405
    (json_ok berlin_current) (json_ok berlin_forecast)
    (json_ok berlin_geocode) 0.

(** The same network behind a browser without positioning, at another
    time of day. *)
Definition berlin_no_geolocation : Host :=
  host_at None 52.52 13.405
    (json_ok berlin_current) (json_ok berlin_forecast)
    (json_ok berlin_geocode) 1730000000000.

(** The current-weather body has a [current_weather] block with neither
    [temperature] nor [windspeed]. *)
Definition berlin_no_temperature : Host :=
  host_at (Some (PositionFix 52.52 13.405)) 52.52 13.405
    (json_ok (obj [("current_weather", obj [])]))
    (json_ok berlin_forecast) (json_ok berlin_geocode) 0.

(** The forecast endpoint answers with status 500. *)
Definition berlin_forecast_500 : Host :=
  host_at (Some (PositionFix 52.52 13.405)) 52.52 13.405
    (json_ok berlin_current)
    (Resolved {| ok := false; body := Some berlin_forecast |})
    (json_ok berlin_geocode) 0.

(** The geocoder knows neither city nor country. *)
Definition berlin_anonymous : Host :=
  host_at (Some (PositionFix 52.52 13.405)) 52.52 13.405
    (json_ok berlin_current) (json_ok berlin_forecast)
    (json_ok (obj [])) 0.

(** Temperature arrays shorter than the time arrays. *)
Definition short_daily : value :=
  obj [("time", VArr [VStr "2024-06-01"; VStr "2024-06-02"]);
       ("temperature_2m_max", VArr [VNum 22]);
       ("temperature_2m_min", VArr []);
       ("sunrise", VArr [VStr "2024-06-01T04:45"]);
       ("sunset", VArr [VStr "2024-06-01T21:10"])].

Definition short_hourly : value :=
  obj [("time", VArr [VStr "2024-06-01T00:00"; VStr "2024-06-01T01:00"]);
       ("temperature_2m", VArr [VNum 16])].

Definition berlin_short : Host :=
  host_at (Some (PositionFix 52.52 13.405)) 52.52 13.405
    (json_ok berlin_current)
    (json_ok (obj [("daily", short_daily); ("hourly", short_hourly)]))
    (json_ok berlin_geocode) 0.

(** The forecast body has a [daily] block without a [time] array. *)
Definition berlin_no_daily_time : Host :=
  host_at (Some (PositionFix 52.52 13.405)) 52.52 13.405
    (json_ok berlin_current)
    (json_ok (obj [("daily",
                    obj [("temperature_2m_max", VArr [VNum 22; VNum 24]);
                         ("temperature_2m_min", VArr [VNum 14; VNum 15]);
                         ("sunrise", VArr [VStr "2024-06-01T04:45"]);
                         ("sunset", VArr [VStr "2024-06-01T21:10"])]);
                   ("hourly", berlin_hourly)]))
    (json_ok berlin_geocode) 0.

(** ** The dashboard markup *)

(** The engine services the markup calls, in the session's locale and time
    zone.  [to_string] is the conversion a template literal applies;
    [date_value] is the time value of [new Date(v)], NaN for an invalid
    date; [time_label] is
    [new Date(v).toLocaleTimeString('en-US', { hour: '2-digit', minute: '2-digit' })]
    and [weekday_label] is
    [new Date(v).toLocaleDateString('en-US', { weekday: 'short' })]. *)
Record Runtime : Type := {
  to_string : value → string;
  date_value : value → float;
  time_label : value → string;
  weekday_label : value → string;
}.

(** [now >= sunriseTime && now <= sunsetTime] on the time values of the
    three dates, [now] being the clock. *)
Definition isDayTime (rt : Runtime) (h : Host) (sunrise sunset : value)
    : bool :=
  let sunriseTime := date_value rt sunrise in
  let sunsetTime := date_value rt sunset in
  PrimFloat.leb sunriseTime (now h) && PrimFloat.leb (now h) sunsetTime.

Inductive Icon : Type :=
| IconCloud
| IconWind
| IconDroplets
| IconSun
| IconGauge
| IconMoon.

(** One column of the hourly strip, one row of the 7-day list, one tile of
    the grid: the React key and the expressions placed in the markup. *)
Record HourCell : Type := {
  hour_key : nat;
  hour_label : string;
  hour_temperature : value;
}.

Record DayRow : Type := {
  day_key : nat;
  day_label : string;
  day_max : value;
  day_min : value;
}.

Record Tile : Type := {
  tile_key : nat;
  tile_title : string;
  tile_icon : Icon;
  tile_value : value;
}.

(** The expressions the returned element tree holds, in markup order. *)
Record Dashboard : Type := {
  head_temperature : value;
  head_condition : value;
  head_name : value;
  head_country : value;
  head_high : value;
  head_low : value;
  hour_cells : list HourCell;
  day_rows : list DayRow;
  tiles : list Tile;
  sunrise_label : string;
  sun_icon : Icon;
  sunset_label : string;
  dawn_label : string;
  dusk_label : string;
}.

(** [days[0].p]: the first element, or a property read on [undefined]. *)
Definition first_day (days : list DailyEntry) (p : DailyEntry → value)
    : completion value :=
  match days !! 0 with
  | Some day => Normal (p day)
  | None => Throw TypeError
  end.

(** The markup returned once the three guards are passed. *)
Definition dashboard (rt : Runtime) (h : Host) (w : WeatherData)
    : completion Dashboard :=
  high ← first_day (daily (forecast w)) temperatureMax;
  low ← first_day (daily (forecast w)) temperatureMin;
  Normal {|
    head_temperature := temperature (current w);
    head_condition := condition (current w);
    head_name := name (location w);
    head_country := country (location w);
    head_high := high;
    head_low := low;
    hour_cells :=
      imap (λ index hour,
              {| hour_key := index;
                 hour_label := time_label rt (time hour);
                 hour_temperature := hourly_temperature hour |})
           (hourly (forecast w));
    day_rows :=
      imap (λ index day,
              {| day_key := index;
                 day_label := weekday_label rt (date day);
                 day_max := temperatureMax day;
                 day_min := temperatureMin day |})
           (take 7 (daily (forecast w)));
    tiles :=
      imap (λ index item,
              {| tile_key := index;
                 tile_title := item.1.1;
                 tile_icon := item.1.2;
                 tile_value := item.2 |})
           [("Wind", IconWind,
             VStr (to_string rt (windSpeed (current w)) ++ " m/s"));
            ("Humidity", IconDroplets,
             VStr (to_string rt (humidity (current w)) ++ "%"));
            ("UV Index", IconSun, uvIndex (current w));
            ("Pressure", IconGauge,
             VStr (to_string rt (pressure (current w)) ++ " hPa"))];
    sunrise_label := time_label rt (sunrise (astronomy w));
    sun_icon := if isDayTime rt h (sunrise (astronomy w))
                                  (sunset (astronomy w))
                then IconSun else IconMoon;
    sunset_label := time_label rt (sunset (astronomy w));
    dawn_label := time_label rt (dawn (astronomy w));
    dusk_label := time_label rt (dusk (astronomy w));
  |}.

(** What the component returns for a state: the three guards, then the
    markup. *)
Inductive Rendered : Type :=
| LoadingText
| ErrorText (message : string)
| Null
| Markup (d : Dashboard).

Definition WeatherApp (rt : Runtime) (h : Host) (st : AppState)
    : completion Rendered :=
  match render st with
  | ShowLoading => Normal LoadingText
  | ShowError msg => Normal (ErrorText msg)
  | ShowNothing => Normal Null
  | ShowDashboard w => d ← dashboard rt h w; Normal (Markup d)
  end.

(** ** Hosts and runtimes for the edge cases *)

Definition is_string (v : value) (s : string) : bool :=
  match v with
  | VStr t => String.eqb t s
  | _ => false
  end.

(** A runtime that knows the dates of the Berlin scenario. *)
Definition test_runtime : Runtime :=
  {| to_string := λ v,
       match v with
       | VNum x => if PrimFloat.eqb x 0 then "0"
                   else if PrimFloat.eqb x 3.1 then "3.1" else "?"
       | VStr s => s
       | _ => "?"
       end;
     date_value := λ v,
       if is_string v "2024-06-01T04:45" then 1717209900000%float
       else if is_string v "2024-06-01T21:10" then 1717269000000%float
       else PrimFloat.nan;
     time_label := λ v,
       if is_string v "2024-06-01T04:45" then "04:45 AM"
       else if is_string v "2024-06-01T21:10" then "09:10 PM"
       else "Invalid Date";
     weekday_label := λ v,
       if is_string v "2024-06-01" then "Sat"
       else if is_string v "2024-06-02" then "Sun"
       else "Invalid Date" |}.

(** Positioning is there and reports an error. *)
Definition berlin_position_denied : Host :=
  host_at (Some PositionError) 52.52 13.405
    (json_ok berlin_current) (json_ok berlin_forecast)
    (json_ok berlin_geocode) 0.

(** The forecast covers no day: every daily array is empty. *)
Definition empty_daily : value :=
  obj [("time", VArr []);
       ("temperature_2m_max", VArr []);
       ("temperature_2m_min", VArr []);
       ("sunrise", VArr []);
       ("sunset", VArr [])].

Definition berlin_no_days : Host :=
  host_at (Some (PositionFix 52.52 13.405)) 52.52 13.405
    (json_ok berlin_current)
    (json_ok (obj [("daily", empty_daily); ("hourly", berlin_hourly)]))
    (json_ok berlin_geocode) 0.

(** Nine days of forecast. *)
Definition nine_days : list DailyEntry :=
  imap (λ i t, {| date := t;
                  temperatureMax := VNum 20;
                  temperatureMin := VNum 10;
                  daily_condition := VStr "Clear" |})
       (replicate 9 (VStr "2024-06-01")).

Definition nine_day_snapshot : WeatherData :=
  {| current := current (snapshot berlin_current berlin_forecast
                                  berlin_geocode);
     forecast := {| daily := nine_days;
                    hourly := hourly (forecast (snapshot berlin_current
                                                  berlin_forecast
                                                  berlin_geocode)) |};
     location := location (snapshot berlin_current berlin_forecast
                                    berlin_geocode);
     astronomy := astronomy (snapshot berlin_current berlin_forecast
                                      berlin_geocode) |}.

(** The geocoder answers with a number where a city name is expected. *)
Definition berlin_numeric_city : Host :=
  host_at (Some (PositionFix 52.52 13.405)) 52.52 13.405
    (json_ok berlin_current) (json_ok berlin_forecast)
    (json_ok (obj [("city", VNum 22); ("countryName", VNum 0)])) 0.

(** The forecast body of [berlin] with a [weathercode] series in its
    [hourly] block, and a current-weather body with more in it than the
    merge reads. *)
Definition berlin_with_weathercode : Host :=
  host_at (Some (PositionFix 52.52 13.405)) 52.52 13.405
    (json_ok berlin_current)
    (json_ok (obj [("daily", berlin_daily);
                   ("hourly",
                    obj [("time", VArr [VStr "2024-06-01T00:00";
                                        VStr "2024-06-01T01:00"]);
                         ("temperature_2m", VArr [VNum 16; VNum 15]);
                         ("weathercode", VArr [VNum 61; VNum 3])])]))
    (json_ok berlin_geocode) 0.

Definition berlin_verbose_current : Host :=
  host_at (Some (PositionFix 52.52 13.405)) 52.52 13.405
    (json_ok (obj [("current_weather",
                    obj [("temperature", VNum 18.4); ("windspeed", VNum 3.1)]);
                   ("daily", obj [("time", VArr [VStr "1999-01-01"])])]))
    (json_ok berlin_forecast) (json_ok berlin_geocode) 0.

(** One day of forecast whose [sunrise] array is empty. *)
Definition sunless_forecast : value :=
  obj [("daily",
        obj [("time", VArr [VStr "2024-06-01"]);
             ("temperature_2m_max", VArr [VNum 22]);
             ("temperature_2m_min", VArr [VNum 14]);
             ("sunrise", VArr []);
             ("sunset", VArr [VStr "2024-06-01T21:10"])]);
       ("hourly", berlin_hourly)].

(** * Properties *)

(** ** Reads and [map] *)

Lemma get_prop_field (v : value) (k : string) :
  get_prop v k = if nullish v then Throw TypeError else Normal (field v k).
Proof. by destruct v. Qed.

Lemma get_index_item (v : value) (i : nat) :
  get_index v i = if nullish v then Throw TypeError else Normal (item v i).
Proof. by destruct v. Qed.

Lemma upstream_item (block : value) (k : string) (i : nat) :
  nullish block = false → nullish (field block k) = false →
  upstream block k i = Normal (item (field block k) i).
Proof.
  intros Hb Hk. unfold upstream.
  rewrite get_prop_field, Hb. cbn.
  by rewrite get_index_item, Hk.
Qed.

Lemma map_from_normal {A : Type} (f : value → nat → completion A)
    (g : nat → value → A) (l : list value) :
  ∀ i, (∀ x j, f x j = Normal (g j x)) →
       map_from f i l = Normal (imap (λ j, g (i + j)) l).
Proof.
  induction l as [|x l IH]; intros i Hf; [done|].
  cbn. rewrite Hf. cbn. rewrite (IH (S i) Hf). cbn.
  rewrite Nat.add_0_r. do 2 f_equal.
  apply imap_ext. intros j y _. cbn. f_equal. lia.
Qed.

Lemma array_map_closed_form {A : Type} (f : value → nat → completion A)
    (g : nat → value → A) (bad : bool) (v : value) :
  (∀ x j, f x j = if bad then Throw TypeError else Normal (g j x)) →
  array_map v f =
    if negb (is_array v) || nonempty v && bad then Throw TypeError
    else Normal (imap g (elements v)).
Proof.
  intros Hf. destruct v as [| | | | |l|]; try done.
  cbn. destruct bad.
  - destruct l as [|x l]; [done|]. cbn. by rewrite Hf.
  - rewrite andb_false_r. by rewrite (map_from_normal f g l 0 Hf).
Qed.

(** ** The merge in closed form *)

#[local] Arguments nullish : simpl never.
#[local] Arguments is_array : simpl never.
#[local] Arguments nonempty : simpl never.
#[local] Arguments field : simpl never.
#[local] Arguments item : simpl never.

Lemma mappedWeatherData_closed_form (cw fd ld : value) :
  mappedWeatherData cw fd ld =
    if merge_faults cw fd ld then Throw TypeError
    else Normal (snapshot cw fd ld).
Proof.
  unfold mappedWeatherData, merge_faults, snapshot.
  rewrite !(get_prop_field cw).
  destruct (nullish cw) eqn:Hcw; [done|]. cbn.
  rewrite !(get_prop_field (field cw _)).
  destruct (nullish (field cw "current_weather")) eqn:Hc; [done|]. cbn.
  rewrite !(get_prop_field fd).
  destruct (nullish fd) eqn:Hfd; [done|]. cbn.
  rewrite !(get_prop_field (field fd "daily")).
  destruct (nullish (field fd "daily")) eqn:Hd; [done|]. cbn.
  rewrite (array_map_closed_form _
             (λ i t, {| date := t;
                        temperatureMax :=
                          item (field (field fd "daily") "temperature_2m_max") i;
                        temperatureMin :=
                          item (field (field fd "daily") "temperature_2m_min") i;
                        daily_condition := VStr "Clear" |})
             (nullish (field (field fd "daily") "temperature_2m_max")
              || nullish (field (field fd "daily") "temperature_2m_min"))).
  2:{ intros x j. rewrite !get_index_item.
      destruct (nullish (field (field fd "daily") "temperature_2m_max"));
        [done|]. cbn.
      by destruct (nullish (field (field fd "daily") "temperature_2m_min")). }
  destruct (negb (is_array (field (field fd "daily") "time"))
            || nonempty (field (field fd "daily") "time")
               && (nullish (field (field fd "daily") "temperature_2m_max")
                   || nullish (field (field fd "daily") "temperature_2m_min")))
    eqn:Hdays.
  { done. }
  cbn.
  rewrite !(get_prop_field (field fd "hourly")).
  destruct (nullish (field fd "hourly")) eqn:Hh; [done|]. cbn.
  rewrite (array_map_closed_form _
             (λ i t, {| time := t;
                        hourly_temperature :=
                          item (field (field fd "hourly") "temperature_2m") i;
                        hourly_condition := VStr "Clear" |})
             (nullish (field (field fd "hourly") "temperature_2m"))).
  2:{ intros x j. rewrite get_index_item.
      by destruct (nullish (field (field fd "hourly") "temperature_2m")). }
  destruct (negb (is_array (field (field fd "hourly") "time"))
            || nonempty (field (field fd "hourly") "time")
               && nullish (field (field fd "hourly") "temperature_2m"))
    eqn:Hhours.
  { done. }
  cbn.
  rewrite !(get_prop_field ld).
  destruct (nullish ld) eqn:Hld; [done|]. cbn.
  rewrite !get_index_item.
  destruct (nullish (field (field fd "daily") "sunrise")) eqn:Hr; [done|]. cbn.
  by destruct (nullish (field (field fd "daily") "sunset")) eqn:Hs.
Qed.

(** ** One aggregation, summarised *)

Lemma fetchWeatherData_ui (h : Host) (lat lon : float) (s : Sys) :
  ui (fetchWeatherData h lat lon s).2 =
    match merged h lat lon with
    | Some w => {| weatherData := Some w;
                   loading := false;
                   error := error (ui s) |}
    | None => {| weatherData := weatherData (ui s);
                 loading := false;
                 error := Some "Failed to fetch weather data" |}
    end.
Proof.
  unfold fetchWeatherData, merged, try_catch, await_fetch, await_json.
  generalize (current_weather_url h lat lon) (forecast_url h lat lon)
             (location_url h lat lon).
  intros ua ub uc. unfold mbind, M_bind, mret, M_ret, throw, lift.
  destruct (fetch h ua) as [|[[] [cw|]]]; cbn; try done.
  destruct (fetch h ub) as [|[[] [fd|]]]; cbn; try done.
  destruct (fetch h uc) as [|[[] [ld|]]]; cbn; try done.
  by destruct (mappedWeatherData cw fd ld).
Qed.

Lemma aggregate_ui (h : Host) (lat lon : float) :
  ui (aggregate h lat lon) =
    match merged h lat lon with
    | Some w => ready w
    | None => fetch_failed
    end.
Proof. unfold aggregate. by rewrite fetchWeatherData_ui. Qed.

Lemma aggregate_ready_inv (h : Host) (lat lon : float) (w : WeatherData) :
  weatherData (ui (aggregate h lat lon)) = Some w →
  ∃ cw fd ld,
    usable_body (fetch h (current_weather_url h lat lon)) = Some cw
    ∧ usable_body (fetch h (forecast_url h lat lon)) = Some fd
    ∧ usable_body (fetch h (location_url h lat lon)) = Some ld
    ∧ merge_faults cw fd ld = false
    ∧ w = snapshot cw fd ld.
Proof.
  rewrite aggregate_ui. unfold merged.
  destruct (usable_body (fetch h (current_weather_url h lat lon))) as [cw|];
    [|done].
  destruct (usable_body (fetch h (forecast_url h lat lon))) as [fd|]; [|done].
  destruct (usable_body (fetch h (location_url h lat lon))) as [ld|]; [|done].
  cbn. rewrite mappedWeatherData_closed_form.
  destruct (merge_faults cw fd ld) eqn:Hm; [done|].
  cbn. intros [= <-]. by exists cw, fd, ld.
Qed.

Lemma merged_snapshot (h : Host) (lat lon : float) (cw fd ld : value) :
  usable_body (fetch h (current_weather_url h lat lon)) = Some cw →
  usable_body (fetch h (forecast_url h lat lon)) = Some fd →
  usable_body (fetch h (location_url h lat lon)) = Some ld →
  merged h lat lon =
    if merge_faults cw fd ld then None else Some (snapshot cw fd ld).
Proof.
  intros Ha Hb Hc. unfold merged. rewrite Ha, Hb, Hc. cbn.
  rewrite mappedWeatherData_closed_form. by destruct (merge_faults cw fd ld).
Qed.

Lemma usable_body_resolved (x : FetchResult) (r : Response) (v v' : value) :
  x = Resolved r → body r = Some v → usable_body x = Some v' → v' = v.
Proof.
  intros -> Hb. cbn. destruct (ok r); [|done]. rewrite Hb. by intros [= ->].
Qed.

Lemma merge_faults_false (cw fd ld : value) :
  merge_faults cw fd ld = false →
  nullish cw = false
  ∧ nullish (field cw "current_weather") = false
  ∧ nullish fd = false
  ∧ nullish (field fd "daily") = false
  ∧ is_array (field (field fd "daily") "time") = true
  ∧ (nonempty (field (field fd "daily") "time") = true →
     nullish (field (field fd "daily") "temperature_2m_max") = false
     ∧ nullish (field (field fd "daily") "temperature_2m_min") = false)
  ∧ nullish (field fd "hourly") = false
  ∧ is_array (field (field fd "hourly") "time") = true
  ∧ (nonempty (field (field fd "hourly") "time") = true →
     nullish (field (field fd "hourly") "temperature_2m") = false)
  ∧ nullish ld = false
  ∧ nullish (field (field fd "daily") "sunrise") = false
  ∧ nullish (field (field fd "daily") "sunset") = false.
Proof.
  unfold merge_faults. intros H.
  repeat (apply orb_false_iff in H as [H ?]).
  repeat split; try done.
  - by apply negb_false_iff.
  - destruct (nonempty (field (field fd "daily") "time")); [|done].
    by destruct (nullish (field (field fd "daily") "temperature_2m_max")).
  - destruct (nonempty (field (field fd "daily") "time")); [|done].
    destruct (nullish (field (field fd "daily") "temperature_2m_max")); [done|].
    by destruct (nullish (field (field fd "daily") "temperature_2m_min")).
  - by apply negb_false_iff.
  - destruct (nonempty (field (field fd "hourly") "time")); [|done].
    by destruct (nullish (field (field fd "hourly") "temperature_2m")).
Qed.

Lemma get_prop_Normal (v x : value) (k : string) :
  get_prop v k = Normal x → nullish v = false ∧ x = field v k.
Proof.
  rewrite get_prop_field. destruct (nullish v); [done|]. by intros [= <-].
Qed.

Lemma lookup_nonempty (l : list value) (i : nat) (x : value) :
  l !! i = Some x → nonempty (VArr l) = true.
Proof. by destruct l. Qed.

(** ** Forecast arrays *)

(** C1. When the forecast body has array-valued [daily.time] and
    [hourly.time] and a snapshot is produced, [forecast.daily] is as long
    as [daily.time] and [forecast.hourly] as long as [hourly.time], and
    entry [i] of each is built from element [i] of the time array and
    index [i] of the upstream temperature arrays: nothing is reordered,
    dropped or merged. *)
Theorem forecast_index_correspondence
    (h : Host) (lat lon : float) (r : Response)
    (fd d hr : value) (ts hs : list value) (w : WeatherData) :
  fetch h (forecast_url h lat lon) = Resolved r →
  body r = Some fd →
  get_prop fd "daily" = Normal d →
  get_prop d "time" = Normal (VArr ts) →
  get_prop fd "hourly" = Normal hr →
  get_prop hr "time" = Normal (VArr hs) →
  weatherData (ui (aggregate h lat lon)) = Some w →
  length (daily (forecast w)) = length ts
  ∧ length (hourly (forecast w)) = length hs
  ∧ (∀ i t, ts !! i = Some t →
       ∃ e, daily (forecast w) !! i = Some e
            ∧ date e = t
            ∧ upstream d "temperature_2m_max" i = Normal (temperatureMax e)
            ∧ upstream d "temperature_2m_min" i = Normal (temperatureMin e))
  ∧ (∀ i t, hs !! i = Some t →
       ∃ e, hourly (forecast w) !! i = Some e
            ∧ time e = t
            ∧ upstream hr "temperature_2m" i = Normal (hourly_temperature e)).
Proof.
  intros Hf Hb Hd Ht Hh Hht Hw.
  apply aggregate_ready_inv in Hw as (cw & fd' & ld & _ & Hfd & _ & Hm & ->).
  apply (usable_body_resolved _ _ _ _ Hf Hb) in Hfd as ->.
  apply get_prop_Normal in Hd as [_ ->], Hh as [_ ->].
  apply get_prop_Normal in Ht as [Hdn Ht], Hht as [Hhn Hht].
  apply merge_faults_false in Hm
    as (_ & _ & _ & _ & _ & Hday & _ & _ & Hhour & _).
  rewrite <- Ht in Hday. rewrite <- Hht in Hhour.
  cbn. rewrite <- Ht, <- Hht. cbn. rewrite !length_imap.
  repeat split.
  - intros i t Hi. rewrite list_lookup_imap, Hi. cbn.
    destruct (Hday (lookup_nonempty _ _ _ Hi)) as [Hmax Hmin].
    eexists. split; [done|]. cbn.
    by rewrite !upstream_item.
  - intros i t Hi. rewrite list_lookup_imap, Hi. cbn.
    pose proof (Hhour (lookup_nonempty _ _ _ Hi)) as Htemp.
    eexists. split; [done|]. cbn.
    by rewrite upstream_item.
Qed.

Lemma forecast_index_correspondence_witness :
  length (daily (forecast (snapshot berlin_current berlin_forecast
                                    berlin_geocode))) = 2
  ∧ length (hourly (forecast (snapshot berlin_current berlin_forecast
                                       berlin_geocode))) = 2
  ∧ (∃ e, daily (forecast (snapshot berlin_current berlin_forecast
                                    berlin_geocode)) !! 1 = Some e
          ∧ date e = VStr "2024-06-02"
          ∧ upstream berlin_daily "temperature_2m_max" 1
            = Normal (temperatureMax e)
          ∧ upstream berlin_daily "temperature_2m_min" 1
            = Normal (temperatureMin e))
  ∧ (∃ e, hourly (forecast (snapshot berlin_current berlin_forecast
                                     berlin_geocode)) !! 0 = Some e
          ∧ time e = VStr "2024-06-01T00:00"
          ∧ upstream berlin_hourly "temperature_2m" 0
            = Normal (hourly_temperature e)).
Proof.
  destruct (forecast_index_correspondence berlin 52.52 13.405
              {| ok := true; body := Some berlin_forecast |}
              berlin_forecast berlin_daily berlin_hourly
              [VStr "2024-06-01"; VStr "2024-06-02"]
              [VStr "2024-06-01T00:00"; VStr "2024-06-01T01:00"]
              (snapshot berlin_current berlin_forecast berlin_geocode))
    as (Hd & Hh & Hdaily & Hhourly);
    try (vm_compute; reflexivity).
  split; [exact Hd|]. split; [exact Hh|]. split.
  - exact (Hdaily 1 (VStr "2024-06-02") eq_refl).
  - exact (Hhourly 0 (VStr "2024-06-01T00:00") eq_refl).
Defined.

(** ** Failure of a call *)

Lemma merged_bad_status (h : Host) (lat lon : float) (r : Response) :
  fetch h (current_weather_url h lat lon) = Resolved r
  ∨ fetch h (forecast_url h lat lon) = Resolved r
  ∨ fetch h (location_url h lat lon) = Resolved r →
  ok r = false →
  merged h lat lon = None.
Proof.
  intros Hcall Hok. unfold merged.
  destruct Hcall as [Hr|[Hr|Hr]]; rewrite Hr; cbn; rewrite Hok; cbn.
  - done.
  - by destruct (usable_body (fetch h (current_weather_url h lat lon))).
  - destruct (usable_body (fetch h (current_weather_url h lat lon))); [|done].
    by destruct (usable_body (fetch h (forecast_url h lat lon))).
Qed.

(** C2. If one of the three calls answers with a non-success status, the
    aggregation ends in the single failure state, message
    'Failed to fetch weather data', and the snapshot slot keeps what it
    held before ([null] on a fresh component): no part of a snapshot is
    stored. *)
Theorem non_success_status_fails_whole_aggregation
    (h : Host) (lat lon : float) (r : Response) (s : Sys) :
  fetch h (current_weather_url h lat lon) = Resolved r
  ∨ fetch h (forecast_url h lat lon) = Resolved r
  ∨ fetch h (location_url h lat lon) = Resolved r →
  ok r = false →
  ui (fetchWeatherData h lat lon s).2
    = {| weatherData := weatherData (ui s);
         loading := false;
         error := Some "Failed to fetch weather data" |}
  ∧ ui (aggregate h lat lon) = fetch_failed
  ∧ weatherData (ui (aggregate h lat lon)) = None
  ∧ render (ui (aggregate h lat lon))
    = ShowError "Failed to fetch weather data".
Proof.
  intros Hcall Hok.
  pose proof (merged_bad_status h lat lon r Hcall Hok) as Hm.
  rewrite aggregate_ui, fetchWeatherData_ui, Hm. done.
Qed.

Lemma non_success_status_fails_whole_aggregation_witness :
  ui (fetchWeatherData berlin_forecast_500 52.52 13.405 initial).2
    = {| weatherData := None;
         loading := false;
         error := Some "Failed to fetch weather data" |}
  ∧ ui (aggregate berlin_forecast_500 52.52 13.405) = fetch_failed
  ∧ weatherData (ui (aggregate berlin_forecast_500 52.52 13.405)) = None
  ∧ render (ui (aggregate berlin_forecast_500 52.52 13.405))
    = ShowError "Failed to fetch weather data".
Proof.
  apply (non_success_status_fails_whole_aggregation berlin_forecast_500
           52.52 13.405 {| ok := false; body := Some berlin_forecast |}
           initial).
  - right. left. vm_compute. reflexivity.
  - reflexivity.
Defined.

(** ** Location names *)

(** C3. In a produced snapshot, [location.name] is "Unknown" when the
    geocode body has no [city] or an empty one, and [location.country] is
    "Unknown" when it has no [countryName] or an empty one; each fallback
    looks at its own field only. *)
Theorem unknown_location_fallbacks
    (h : Host) (lat lon : float) (r : Response) (ld : value)
    (w : WeatherData) :
  fetch h (location_url h lat lon) = Resolved r →
  body r = Some ld →
  weatherData (ui (aggregate h lat lon)) = Some w →
  (get_prop ld "city" = Normal VUndefined
   ∨ get_prop ld "city" = Normal (VStr "") →
   name (location w) = VStr "Unknown")
  ∧ (get_prop ld "countryName" = Normal VUndefined
     ∨ get_prop ld "countryName" = Normal (VStr "") →
     country (location w) = VStr "Unknown").
Proof.
  intros Hf Hb Hw.
  apply aggregate_ready_inv in Hw as (cw & fd & ld' & _ & _ & Hld & _ & ->).
  apply (usable_body_resolved _ _ _ _ Hf Hb) in Hld as ->.
  cbn. split.
  - intros [H|H]; apply get_prop_Normal in H as [_ <-]; done.
  - intros [H|H]; apply get_prop_Normal in H as [_ <-]; done.
Qed.

Lemma unknown_location_fallbacks_witness :
  name (location (snapshot berlin_current berlin_forecast (obj [])))
    = VStr "Unknown"
  ∧ country (location (snapshot berlin_current berlin_forecast (obj [])))
    = VStr "Unknown".
Proof.
  destruct (unknown_location_fallbacks berlin_anonymous 52.52 13.405
              {| ok := true; body := Some (obj []) |} (obj [])
              (snapshot berlin_current berlin_forecast (obj [])))
    as [Hname Hcountry];
    try (vm_compute; reflexivity).
  split; [apply Hname | apply Hcountry]; left; reflexivity.
Defined.

(** ** Positioning *)

(** C5. Without a positioning capability the session ends in the error
    state 'Geolocation is not supported by this browser' and [fetch] is
    never called. *)
Theorem no_geolocation_no_network (h : Host) :
  geolocation h = None →
  ui (mount h)
    = {| weatherData := None;
         loading := false;
         error := Some "Geolocation is not supported by this browser" |}
  ∧ requests (mount h) = []
  ∧ render (ui (mount h))
    = ShowError "Geolocation is not supported by this browser".
Proof.
  intros Hgeo. unfold mount, getLocation. rewrite Hgeo. done.
Qed.

Lemma no_geolocation_no_network_witness :
  ui (mount berlin_no_geolocation)
    = {| weatherData := None;
         loading := false;
         error := Some "Geolocation is not supported by this browser" |}
  ∧ requests (mount berlin_no_geolocation) = []
  ∧ render (ui (mount berlin_no_geolocation))
    = ShowError "Geolocation is not supported by this browser".
Proof.
  apply (no_geolocation_no_network berlin_no_geolocation). reflexivity.
Defined.

(** ** Placeholders and astronomy *)

(** C6. Every produced snapshot carries the fixed placeholders in the
    fields that have no upstream source: [humidity], [uvIndex] and
    [pressure] are the number 0, every [condition] (current, each daily
    entry, each hourly entry) is "Clear", and [dawn] and [dusk] are the
    empty string. *)
Theorem placeholder_fields
    (h : Host) (lat lon : float) (w : WeatherData) :
  weatherData (ui (aggregate h lat lon)) = Some w →
  humidity (current w) = VNum 0
  ∧ uvIndex (current w) = VNum 0
  ∧ pressure (current w) = VNum 0
  ∧ condition (current w) = VStr "Clear"
  ∧ Forall (λ e, daily_condition e = VStr "Clear") (daily (forecast w))
  ∧ Forall (λ e, hourly_condition e = VStr "Clear") (hourly (forecast w))
  ∧ dawn (astronomy w) = VStr ""
  ∧ dusk (astronomy w) = VStr "".
Proof.
  intros Hw.
  apply aggregate_ready_inv in Hw as (cw & fd & ld & _ & _ & _ & _ & ->).
  cbn. do 4 (split; [done|]).
  split; [|split; [|done]]; apply Forall_lookup; intros i e;
    rewrite list_lookup_imap; intros He;
    apply fmap_Some in He as (t & _ & ->); done.
Qed.

Lemma placeholder_fields_witness :
  humidity (current (snapshot berlin_current berlin_forecast berlin_geocode))
    = VNum 0
  ∧ uvIndex (current (snapshot berlin_current berlin_forecast berlin_geocode))
    = VNum 0
  ∧ pressure (current (snapshot berlin_current berlin_forecast berlin_geocode))
    = VNum 0
  ∧ condition (current (snapshot berlin_current berlin_forecast
                                 berlin_geocode)) = VStr "Clear"
  ∧ Forall (λ e, daily_condition e = VStr "Clear")
      (daily (forecast (snapshot berlin_current berlin_forecast
                                 berlin_geocode)))
  ∧ Forall (λ e, hourly_condition e = VStr "Clear")
      (hourly (forecast (snapshot berlin_current berlin_forecast
                                  berlin_geocode)))
  ∧ dawn (astronomy (snapshot berlin_current berlin_forecast berlin_geocode))
    = VStr ""
  ∧ dusk (astronomy (snapshot berlin_current berlin_forecast berlin_geocode))
    = VStr "".
Proof.
  apply (placeholder_fields berlin 52.52 13.405).
  vm_compute. reflexivity.
Defined.

(** C7. In every produced snapshot [astronomy.sunrise] and
    [astronomy.sunset] are index 0 of the forecast body's [daily.sunrise]
    and [daily.sunset]; any other session whose forecast call gets the same
    answer reports the same two values, whatever its current-weather call
    returns. *)
Theorem astronomy_from_first_daily_entry
    (h : Host) (lat lon : float) (r : Response) (fd : value)
    (w : WeatherData) :
  fetch h (forecast_url h lat lon) = Resolved r →
  body r = Some fd →
  weatherData (ui (aggregate h lat lon)) = Some w →
  (∃ d, get_prop fd "daily" = Normal d
        ∧ upstream d "sunrise" 0 = Normal (sunrise (astronomy w))
        ∧ upstream d "sunset" 0 = Normal (sunset (astronomy w)))
  ∧ (∀ h' lat' lon' w',
       fetch h' (forecast_url h' lat' lon') = Resolved r →
       weatherData (ui (aggregate h' lat' lon')) = Some w' →
       sunrise (astronomy w') = sunrise (astronomy w)
       ∧ sunset (astronomy w') = sunset (astronomy w)).
Proof.
  intros Hf Hb Hw.
  apply aggregate_ready_inv in Hw as (cw & fd' & ld & _ & Hfd & _ & Hm & ->).
  apply (usable_body_resolved _ _ _ _ Hf Hb) in Hfd as ->.
  apply merge_faults_false in Hm
    as (_ & _ & Hn & Hd & _ & _ & _ & _ & _ & _ & Hr & Hs).
  split.
  - exists (field fd "daily"). rewrite get_prop_field, Hn.
    split; [done|]. cbn. by rewrite !upstream_item.
  - intros h' lat' lon' w' Hf' Hw'.
    apply aggregate_ready_inv in Hw'
      as (cw' & fd' & ld' & _ & Hfd' & _ & _ & ->).
    by apply (usable_body_resolved _ _ _ _ Hf' Hb) in Hfd' as ->.
Qed.

Lemma astronomy_from_first_daily_entry_witness :
  (∃ d, get_prop berlin_forecast "daily" = Normal d
        ∧ upstream d "sunrise" 0
          = Normal (sunrise (astronomy (snapshot berlin_current
                                          berlin_forecast berlin_geocode)))
        ∧ upstream d "sunset" 0
          = Normal (sunset (astronomy (snapshot berlin_current
                                         berlin_forecast berlin_geocode))))
  ∧ sunrise (astronomy (snapshot (obj [("current_weather", obj [])])
                                 berlin_forecast berlin_geocode))
    = sunrise (astronomy (snapshot berlin_current berlin_forecast
                                   berlin_geocode)).
Proof.
  destruct (astronomy_from_first_daily_entry berlin 52.52 13.405
              {| ok := true; body := Some berlin_forecast |} berlin_forecast
              (snapshot berlin_current berlin_forecast berlin_geocode))
    as [Hsource Hother];
    try (vm_compute; reflexivity).
  split; [exact Hsource|].
  apply (Hother berlin_no_temperature 52.52%float 13.405%float);
    vm_compute; reflexivity.
Defined.

(** ** Determinism *)

(** C9. The state an aggregation leaves depends on the three answers
    only: two sessions whose three calls get the same answers, started from
    the same component state, end in the same state, snapshot included,
    whatever else differs between their hosts (clock, positioning, answers
    to other URLs). *)
Theorem aggregation_deterministic
    (h1 h2 : Host) (lat lon : float) (s : Sys) :
  fetch h1 (current_weather_url h1 lat lon)
    = fetch h2 (current_weather_url h2 lat lon) →
  fetch h1 (forecast_url h1 lat lon) = fetch h2 (forecast_url h2 lat lon) →
  fetch h1 (location_url h1 lat lon) = fetch h2 (location_url h2 lat lon) →
  ui (fetchWeatherData h1 lat lon s).2 = ui (fetchWeatherData h2 lat lon s).2
  ∧ weatherData (ui (aggregate h1 lat lon))
    = weatherData (ui (aggregate h2 lat lon)).
Proof.
  intros Ha Hb Hc.
  assert (merged h1 lat lon = merged h2 lat lon) as Hm.
  { unfold merged. by rewrite Ha, Hb, Hc. }
  by rewrite !aggregate_ui, !fetchWeatherData_ui, Hm.
Qed.

Lemma aggregation_deterministic_witness :
  ui (fetchWeatherData berlin 52.52 13.405 initial).2
    = ui (fetchWeatherData berlin_no_geolocation 52.52 13.405 initial).2
  ∧ weatherData (ui (aggregate berlin 52.52 13.405))
    = weatherData (ui (aggregate berlin_no_geolocation 52.52 13.405)).
Proof.
  apply (aggregation_deterministic berlin berlin_no_geolocation
           52.52 13.405 initial);
    vm_compute; reflexivity.
Defined.

(** ** Short temperature arrays *)

Lemma item_past_end (l : list value) (i : nat) :
  (length l ≤ i)%nat → item (VArr l) i = VUndefined.
Proof. intros Hi. unfold item. by rewrite lookup_ge_None_2. Qed.

(** C10. The time arrays alone fix the lengths of [forecast.daily] and
    [forecast.hourly]: with three usable answers that are well formed
    except that the temperature arrays may be shorter than the time arrays,
    the aggregation succeeds, and an entry whose index lies past the end of
    a temperature array holds [undefined] in the matching field. *)
Theorem short_temperature_arrays_yield_undefined
    (h : Host) (lat lon : float) (cw fd ld d hr : value)
    (c l : gmap string value)
    (ts hs maxs mins temps rises sets : list value) :
  usable_body (fetch h (current_weather_url h lat lon)) = Some cw →
  usable_body (fetch h (forecast_url h lat lon)) = Some fd →
  usable_body (fetch h (location_url h lat lon)) = Some ld →
  get_prop cw "current_weather" = Normal (VObj c) →
  ld = VObj l →
  get_prop fd "daily" = Normal d →
  get_prop d "time" = Normal (VArr ts) →
  get_prop d "temperature_2m_max" = Normal (VArr maxs) →
  get_prop d "temperature_2m_min" = Normal (VArr mins) →
  get_prop d "sunrise" = Normal (VArr rises) →
  get_prop d "sunset" = Normal (VArr sets) →
  get_prop fd "hourly" = Normal hr →
  get_prop hr "time" = Normal (VArr hs) →
  get_prop hr "temperature_2m" = Normal (VArr temps) →
  ∃ w, ui (aggregate h lat lon) = ready w
       ∧ length (daily (forecast w)) = length ts
       ∧ length (hourly (forecast w)) = length hs
       ∧ (∀ i, (length maxs ≤ i < length ts)%nat →
            ∃ e, daily (forecast w) !! i = Some e
                 ∧ temperatureMax e = VUndefined)
       ∧ (∀ i, (length mins ≤ i < length ts)%nat →
            ∃ e, daily (forecast w) !! i = Some e
                 ∧ temperatureMin e = VUndefined)
       ∧ (∀ i, (length temps ≤ i < length hs)%nat →
            ∃ e, hourly (forecast w) !! i = Some e
                 ∧ hourly_temperature e = VUndefined).
Proof.
  intros Ha Hb Hc Hcw -> Hd Ht Hmax Hmin Hr Hs Hh Hht Htemp.
  apply get_prop_Normal in Hcw as [Hcwn Hcw], Hd as [Hfdn ->].
  apply get_prop_Normal in Ht as [Hdn Ht], Hmax as [_ Hmax], Hmin as [_ Hmin].
  apply get_prop_Normal in Hr as [_ Hr], Hs as [_ Hs], Hh as [_ ->].
  apply get_prop_Normal in Hht as [Hhn Hht], Htemp as [_ Htemp].
  assert (merge_faults cw fd (VObj l) = false) as Hm.
  { unfold merge_faults.
    rewrite Hcwn, Hfdn, Hdn, Hhn, <- Hcw, <- Ht, <- Hmax, <- Hmin, <- Hr,
      <- Hs, <- Hht, <- Htemp.
    cbn. by rewrite !andb_false_r. }
  exists (snapshot cw fd (VObj l)).
  rewrite aggregate_ui, (merged_snapshot h lat lon cw fd (VObj l) Ha Hb Hc), Hm.
  split; [done|]. unfold snapshot. cbn.
  rewrite <- Ht, <- Hmax, <- Hmin, <- Hht, <- Htemp. cbn.
  rewrite !length_imap. do 2 (split; [done|]).
  split; [|split]; intros i [Hlo Hhi];
    apply lookup_lt_is_Some_2 in Hhi as [t Hi];
    rewrite list_lookup_imap, Hi; cbn;
    (eexists; split; [done|]); cbn; by apply item_past_end.
Qed.

Lemma short_temperature_arrays_yield_undefined_witness :
  ∃ w, ui (aggregate berlin_short 52.52 13.405) = ready w
       ∧ length (daily (forecast w)) = 2
       ∧ length (hourly (forecast w)) = 2
       ∧ (∃ e, daily (forecast w) !! 1 = Some e
               ∧ temperatureMax e = VUndefined)
       ∧ (∃ e, daily (forecast w) !! 0 = Some e
               ∧ temperatureMin e = VUndefined)
       ∧ (∃ e, hourly (forecast w) !! 1 = Some e
               ∧ hourly_temperature e = VUndefined).
Proof.
  destruct (short_temperature_arrays_yield_undefined berlin_short
              52.52 13.405 berlin_current
              (obj [("daily", short_daily); ("hourly", short_hourly)])
              berlin_geocode short_daily short_hourly
              (list_to_map [("temperature", VNum 18.4);
                            ("windspeed", VNum 3.1)])
              (list_to_map [("city", VStr "Berlin");
                            ("countryName", VStr "Germany")])
              [VStr "2024-06-01"; VStr "2024-06-02"]
              [VStr "2024-06-01T00:00"; VStr "2024-06-01T01:00"]
              [VNum 22] [] [VNum 16]
              [VStr "2024-06-01T04:45"] [VStr "2024-06-01T21:10"])
    as (w & Hw & Hd & Hh & Hmax & Hmin & Htemp);
    try (vm_compute; reflexivity).
  exists w. split; [exact Hw|]. split; [exact Hd|]. split; [exact Hh|].
  split; [|split].
  - apply (Hmax 1). cbn. lia.
  - apply (Hmin 0). cbn. lia.
  - apply (Htemp 1). cbn. lia.
Defined.

(** ** What makes an aggregation fail *)

Lemma call_fault_unusable (x : FetchResult) :
  CallFault x ↔ usable_body x = None.
Proof.
  split.
  - intros [->|r -> Hok|r -> Hb]; cbn; [done| by rewrite Hok|].
    rewrite Hb. by destruct (ok r).
  - destruct x as [|r]; cbn; [intros _; by apply transport_error|].
    destruct (ok r) eqn:Hok.
    + intros Hb. by apply (bad_body _ r).
    + intros _. by apply (bad_status _ r).
Qed.

Lemma run_fault_merged (h : Host) (lat lon : float) :
  RunFault h lat lon ↔ merged h lat lon = None.
Proof.
  unfold merged. split.
  - intros [Hf|Hf|Hf|cw fd ld Ha Hb Hc Hm].
    + apply call_fault_unusable in Hf. by rewrite Hf.
    + apply call_fault_unusable in Hf. rewrite Hf.
      by destruct (usable_body (fetch h (current_weather_url h lat lon))).
    + apply call_fault_unusable in Hf. rewrite Hf.
      destruct (usable_body (fetch h (current_weather_url h lat lon)));
        [|done].
      by destruct (usable_body (fetch h (forecast_url h lat lon))).
    + rewrite Ha, Hb, Hc. cbn.
      by rewrite mappedWeatherData_closed_form, Hm.
  - destruct (usable_body (fetch h (current_weather_url h lat lon)))
      as [cw|] eqn:Ha;
      [|intros _; by apply fault_current, call_fault_unusable].
    destruct (usable_body (fetch h (forecast_url h lat lon)))
      as [fd|] eqn:Hb;
      [|intros _; by apply fault_forecast, call_fault_unusable].
    destruct (usable_body (fetch h (location_url h lat lon)))
      as [ld|] eqn:Hc;
      [|intros _; by apply fault_location, call_fault_unusable].
    cbn. rewrite mappedWeatherData_closed_form.
    destruct (merge_faults cw fd ld) eqn:Hm; [|done].
    intros _. by apply (fault_merge h lat lon cw fd ld).
Qed.

(** Every failure has one of the listed causes: without any, the
    aggregation stores a snapshot. *)
Lemma fetch_failed_has_a_cause (h : Host) (lat lon : float) :
  ui (aggregate h lat lon) = fetch_failed → RunFault h lat lon.
Proof.
  rewrite aggregate_ui. intros Hui. apply run_fault_merged.
  by destruct (merged h lat lon).
Qed.

(** C4, as the code has it. If a call is rejected at transport level,
    answers with a non-success status or with a body that is not JSON, or
    the merge reads a property of [undefined] or [null] or calls [map] on a
    [daily.time] or [hourly.time] that is not an array (an absent
    [daily.time], for example), the aggregation ends in the single failure
    state reported as 'Failed to fetch weather data' and stores no
    snapshot. *)
Theorem faults_collapse_to_fetch_failed
    (h : Host) (lat lon : float) (s : Sys) :
  RunFault h lat lon →
  ui (fetchWeatherData h lat lon s).2
    = {| weatherData := weatherData (ui s);
         loading := false;
         error := Some "Failed to fetch weather data" |}
  ∧ ui (aggregate h lat lon) = fetch_failed
  ∧ render (ui (aggregate h lat lon))
    = ShowError "Failed to fetch weather data".
Proof.
  intros Hfault. apply run_fault_merged in Hfault.
  by rewrite aggregate_ui, fetchWeatherData_ui, Hfault.
Qed.

Lemma faults_collapse_to_fetch_failed_witness :
  ui (fetchWeatherData berlin_no_daily_time 52.52 13.405 initial).2
    = {| weatherData := None;
         loading := false;
         error := Some "Failed to fetch weather data" |}
  ∧ ui (aggregate berlin_no_daily_time 52.52 13.405) = fetch_failed
  ∧ render (ui (aggregate berlin_no_daily_time 52.52 13.405))
    = ShowError "Failed to fetch weather data".
Proof.
  apply (faults_collapse_to_fetch_failed berlin_no_daily_time
           52.52 13.405 initial).
  apply (fault_merge berlin_no_daily_time 52.52 13.405 berlin_current
           (obj [("daily",
                  obj [("temperature_2m_max", VArr [VNum 22; VNum 24]);
                       ("temperature_2m_min", VArr [VNum 14; VNum 15]);
                       ("sunrise", VArr [VStr "2024-06-01T04:45"]);
                       ("sunset", VArr [VStr "2024-06-01T21:10"])]);
                 ("hourly", berlin_hourly)])
           berlin_geocode);
    vm_compute; reflexivity.
Defined.

(** C4 as stated fails: a current-weather body whose [current_weather]
    block lacks [temperature] and [windspeed] is merged into a snapshot with
    [undefined] in both fields, and the session does not end in the failure
    state. *)
Lemma missing_temperature_is_not_a_failure :
  usable_body (fetch berlin_no_temperature
                 (current_weather_url berlin_no_temperature 52.52 13.405))
    = Some (obj [("current_weather", obj [])])
  ∧ (c ← get_prop (obj [("current_weather", obj [])]) "current_weather";
     get_prop c "temperature") = Normal VUndefined
  ∧ ui (aggregate berlin_no_temperature 52.52 13.405)
    = ready (snapshot (obj [("current_weather", obj [])]) berlin_forecast
               berlin_geocode)
  ∧ temperature (current (snapshot (obj [("current_weather", obj [])])
                            berlin_forecast berlin_geocode)) = VUndefined
  ∧ windSpeed (current (snapshot (obj [("current_weather", obj [])])
                          berlin_forecast berlin_geocode)) = VUndefined
  ∧ ui (aggregate berlin_no_temperature 52.52 13.405) ≠ fetch_failed.
Proof.
  repeat (split; [vm_compute; reflexivity|]).
  intros Hui. vm_compute in Hui. discriminate Hui.
Qed.

(** ** The Berlin scenario *)

(** C8 as stated fails: with the forecast body exactly as the scenario
    lists it, a [daily] block and no [hourly] block, reading
    [forecastData.hourly.time] throws and no snapshot is produced. *)
Lemma berlin_scenario_without_hourly_fails :
  ui (aggregate berlin_literal 52.52 13.405) = fetch_failed
  ∧ ui (mount berlin_literal) = fetch_failed
  ∧ ¬ ∃ w, weatherData (ui (aggregate berlin_literal 52.52 13.405)) = Some w
           ∧ temperature (current w) = VNum 18.4
           ∧ name (location w) = VStr "Berlin"
           ∧ sunrise (astronomy w) = VStr "2024-06-01T04:45"
           ∧ ∃ e, daily (forecast w) !! 1 = Some e
                  ∧ temperatureMax e = VNum 24.
Proof.
  split; [vm_compute; reflexivity|]. split; [vm_compute; reflexivity|].
  intros (w & Hw & _). vm_compute in Hw. discriminate Hw.
Qed.

(** C8, as the code has it. In the scenario with an [hourly] block added to
    the forecast body, whatever its [time] and [temperature_2m] arrays
    hold, the snapshot is produced and has [current.temperature] 18.4,
    [location.name] "Berlin", [astronomy.sunrise] "2024-06-01T04:45" and
    [forecast.daily[1].temperatureMax] 24. *)
Theorem berlin_scenario (times temps : list value) :
  ∃ w, ui (aggregate (berlin_with_hourly times temps) 52.52 13.405) = ready w
       ∧ ui (mount (berlin_with_hourly times temps)) = ready w
       ∧ temperature (current w) = VNum 18.4
       ∧ name (location w) = VStr "Berlin"
       ∧ sunrise (astronomy w) = VStr "2024-06-01T04:45"
       ∧ ∃ e, daily (forecast w) !! 1 = Some e
              ∧ temperatureMax e = VNum 24.
Proof.
  set (fd := obj [("daily", berlin_daily);
                  ("hourly", obj [("time", VArr times);
                                  ("temperature_2m", VArr temps)])]).
  exists (snapshot berlin_current fd berlin_geocode).
  assert (merge_faults berlin_current fd berlin_geocode = false) as Hm
    by (destruct times; vm_compute; reflexivity).
  assert (ui (aggregate (berlin_with_hourly times temps) 52.52 13.405)
          = ready (snapshot berlin_current fd berlin_geocode)) as Hagg.
  { rewrite aggregate_ui,
      (merged_snapshot _ _ _ berlin_current fd berlin_geocode), Hm
      by (vm_compute; reflexivity).
    done. }
  split; [exact Hagg|]. split; [exact Hagg|].
  do 3 (split; [vm_compute; reflexivity|]).
  eexists. split; vm_compute; reflexivity.
Qed.

(** * Further properties of the session *)

(** ** What a session sends and logs *)

Lemma fetchWeatherData_requests (h : Host) (lat lon : float) (s : Sys) :
  requests (fetchWeatherData h lat lon s).2 =
    (requests s ++
     current_weather_url h lat lon ::
     match usable_body (fetch h (current_weather_url h lat lon)) with
     | None => []
     | Some _ =>
         forecast_url h lat lon ::
         match usable_body (fetch h (forecast_url h lat lon)) with
         | None => []
         | Some _ => [location_url h lat lon]
         end
     end)%list.
Proof.
  unfold fetchWeatherData, try_catch, await_fetch, await_json.
  generalize (current_weather_url h lat lon) (forecast_url h lat lon)
             (location_url h lat lon).
  intros ua ub uc. unfold mbind, M_bind, mret, M_ret, throw, lift.
  destruct (fetch h ua) as [|[[] [cw|]]]; cbn; try done.
  destruct (fetch h ub) as [|[[] [fd|]]]; cbn;
    try (by rewrite <- ?app_assoc).
  destruct (fetch h uc) as [|[[] [ld|]]]; cbn;
    try (by rewrite <- ?app_assoc).
  destruct (mappedWeatherData cw fd ld); cbn; by rewrite <- ?app_assoc.
Qed.


Lemma mount_position_fix (h : Host) (lat lon : float) :
  geolocation h = Some (PositionFix lat lon) → mount h = aggregate h lat lon.
Proof. intros Hgeo. unfold mount, aggregate, getLocation. by rewrite Hgeo. Qed.

(** X1. When the positioning capability is there but reports an error, the
    session ends in the error state 'Failed to get location', logs the
    error once, and never calls [fetch]. *)
Theorem position_error_no_network (h : Host) :
  geolocation h = Some PositionError →
  ui (mount h)
    = {| weatherData := None;
         loading := false;
         error := Some "Failed to get location" |}
  ∧ requests (mount h) = []
  ∧ console (mount h) = [LogPositionError "Error getting location:"]
  ∧ render (ui (mount h)) = ShowError "Failed to get location".
Proof.
  intros Hgeo. unfold mount, getLocation. rewrite Hgeo. done.
Qed.

Lemma position_error_no_network_witness :
  ui (mount berlin_position_denied)
    = {| weatherData := None;
         loading := false;
         error := Some "Failed to get location" |}
  ∧ requests (mount berlin_position_denied) = []
  ∧ console (mount berlin_position_denied)
    = [LogPositionError "Error getting location:"]
  ∧ render (ui (mount berlin_position_denied))
    = ShowError "Failed to get location".
Proof.
  apply (position_error_no_network berlin_position_denied). reflexivity.
Defined.

(** X2. A session that sent any request obtained a position fix first, and
    its first request is the current-weather URL of that fix. *)
Theorem requests_need_a_position_fix (h : Host) :
  requests (mount h) ≠ [] →
  ∃ lat lon, geolocation h = Some (PositionFix lat lon)
             ∧ requests (mount h) !! 0 = Some (current_weather_url h lat lon).
Proof.
  intros Hreq. destruct (geolocation h) as [[lat lon| |]|] eqn:Hgeo.
  - exists lat, lon. split; [done|].
    rewrite (mount_position_fix h lat lon Hgeo). unfold aggregate.
    by rewrite fetchWeatherData_requests.
  - by unfold mount, getLocation in Hreq; rewrite Hgeo in Hreq.
  - by unfold mount, getLocation in Hreq; rewrite Hgeo in Hreq.
  - by unfold mount, getLocation in Hreq; rewrite Hgeo in Hreq.
Qed.

Lemma requests_need_a_position_fix_witness :
  ∃ lat lon, geolocation berlin = Some (PositionFix lat lon)
             ∧ requests (mount berlin) !! 0
               = Some (current_weather_url berlin lat lon).
Proof.
  apply (requests_need_a_position_fix berlin).
  vm_compute. discriminate.
Defined.

(** X3. The three requests go out one after the other and stop at the
    first call without a usable body: the current-weather URL always, the
    forecast URL only after a usable current-weather answer, the geocoding
    URL only after both; never more than three, never out of order. *)
Theorem requests_sequential_fail_fast (h : Host) (lat lon : float) (s : Sys) :
  requests (fetchWeatherData h lat lon s).2 =
    (requests s ++
     current_weather_url h lat lon ::
     match usable_body (fetch h (current_weather_url h lat lon)) with
     | None => []
     | Some _ =>
         forecast_url h lat lon ::
         match usable_body (fetch h (forecast_url h lat lon)) with
         | None => []
         | Some _ => [location_url h lat lon]
         end
     end)%list.
Proof. apply fetchWeatherData_requests. Qed.


(** X5. The user-facing message is the same for every failure, but the
    console entry of a non-success status names the call that had it. *)
Theorem status_failure_names_the_call
    (h : Host) (lat lon : float) (r : Response) :
  ok r = false →
  (fetch h (current_weather_url h lat lon) = Resolved r →
   console (aggregate h lat lon)
   = [LogException "Error fetching weather data:"
        (Error "Failed to fetch current weather data")])
  ∧ (is_Some (usable_body (fetch h (current_weather_url h lat lon))) →
     fetch h (forecast_url h lat lon) = Resolved r →
     console (aggregate h lat lon)
     = [LogException "Error fetching weather data:"
          (Error "Failed to fetch forecast data")])
  ∧ (is_Some (usable_body (fetch h (current_weather_url h lat lon))) →
     is_Some (usable_body (fetch h (forecast_url h lat lon))) →
     fetch h (location_url h lat lon) = Resolved r →
     console (aggregate h lat lon)
     = [LogException "Error fetching weather data:"
          (Error "Failed to fetch location data")]).
Proof.
  intros Hok.
  unfold aggregate, fetchWeatherData, try_catch, await_fetch, await_json.
  generalize (current_weather_url h lat lon) (forecast_url h lat lon)
             (location_url h lat lon).
  intros ua ub uc. unfold mbind, M_bind, mret, M_ret, throw, lift.
  split; [|split].
  - intros ->. cbn. by rewrite Hok.
  - intros [cw Ha] ->.
    destruct (fetch h ua) as [|[[] [cw'|]]]; try done.
    cbn. by rewrite Hok.
  - intros [cw Ha] [fd Hb] ->.
    destruct (fetch h ua) as [|[[] [cw'|]]]; try done.
    destruct (fetch h ub) as [|[[] [fd'|]]]; try done.
    cbn. by rewrite Hok.
Qed.

Lemma status_failure_names_the_call_witness :
  console (aggregate berlin_forecast_500 52.52 13.405)
  = [LogException "Error fetching weather data:"
       (Error "Failed to fetch forecast data")].
Proof.
  destruct (status_failure_names_the_call berlin_forecast_500 52.52 13.405
              {| ok := false; body := Some berlin_forecast |} eq_refl)
    as (_ & Hforecast & _).
  apply Hforecast.
  - exists berlin_current. vm_compute. reflexivity.
  - vm_compute. reflexivity.
Defined.

(** X6. Whatever the host does, a mounted component is in one of three
    views: still loading with nothing stored, a dashboard with no error
    set, or one of three error messages with no snapshot stored.  A snapshot
    and an error are never both set and the empty render is never
    reached. *)
Theorem mount_ends_in_one_of_three_views (h : Host) :
  (ui (mount h) = ui initial ∧ render (ui (mount h)) = ShowLoading)
  ∨ (∃ w, ui (mount h) = ready w
          ∧ render (ui (mount h)) = ShowDashboard w)
  ∨ (∃ msg, msg ∈ ["Failed to fetch weather data";
                   "Failed to get location";
                   "Geolocation is not supported by this browser"]
            ∧ ui (mount h) = {| weatherData := None;
                                loading := false;
                                error := Some msg |}
            ∧ render (ui (mount h)) = ShowError msg).
Proof.
  destruct (geolocation h) as [[lat lon| |]|] eqn:Hgeo.
  - rewrite (mount_position_fix h lat lon Hgeo), aggregate_ui.
    destruct (merged h lat lon) as [w|].
    + right. left. by exists w.
    + right. right. exists "Failed to fetch weather data".
      split; [set_solver|done].
  - right. right. exists "Failed to get location".
    unfold mount, getLocation. rewrite Hgeo. split; [set_solver|done].
  - left. unfold mount, getLocation. by rewrite Hgeo.
  - right. right. exists "Geolocation is not supported by this browser".
    unfold mount, getLocation. rewrite Hgeo. split; [set_solver|done].
Qed.

(** ** The three URLs *)

(** X7. For every coordinate the three requests of one aggregation go to
    three different URLs, however the engine prints the two numbers. *)
Theorem urls_pairwise_distinct (h : Host) (lat lon : float) :
  current_weather_url h lat lon ≠ forecast_url h lat lon
  ∧ current_weather_url h lat lon ≠ location_url h lat lon
  ∧ forecast_url h lat lon ≠ location_url h lat lon.
Proof.
  unfold current_weather_url, forecast_url, location_url.
  split; [|split]; intros H.
  - do 4 apply (inj (String.app _)) in H. discriminate H.
  - cbn in H. discriminate H.
  - cbn in H. discriminate H.
Qed.

(** ** What the merge reads *)

#[local] Arguments mappedWeatherData : simpl never.

Lemma field_insert_ne (m : gmap string value) (k k' : string) (v : value) :
  k ≠ k' → field (VObj (<[k:=v]> m)) k' = field (VObj m) k'.
Proof. intros Hk. unfold field. by rewrite lookup_insert_ne. Qed.

Lemma field_insert_eq (m : gmap string value) (k : string) (v : value) :
  field (VObj (<[k:=v]> m)) k = v.
Proof. unfold field. by rewrite lookup_insert_eq. Qed.

Lemma aggregate_same_merge (h1 h2 : Host) (lat lon : float) :
  merged h1 lat lon = merged h2 lat lon →
  ui (aggregate h1 lat lon) = ui (aggregate h2 lat lon).
Proof. intros Hm. by rewrite !aggregate_ui, Hm. Qed.

(** X8. In every produced snapshot [location.name] and [location.country]
    are truthy: never [undefined], [null], [false], 0, NaN or the empty
    string.  A truthy [city] is copied as it is, string or not. *)
Theorem location_never_blank
    (h : Host) (lat lon : float) (ld : value) (w : WeatherData) :
  usable_body (fetch h (location_url h lat lon)) = Some ld →
  weatherData (ui (aggregate h lat lon)) = Some w →
  to_boolean (name (location w)) = true
  ∧ to_boolean (country (location w)) = true
  ∧ (∀ c, get_prop ld "city" = Normal c → to_boolean c = true →
          name (location w) = c)
  ∧ (∀ c, get_prop ld "countryName" = Normal c → to_boolean c = true →
          country (location w) = c).
Proof.
  intros Hld Hw.
  apply aggregate_ready_inv in Hw as (cw & fd & ld' & _ & _ & Hld' & _ & ->).
  rewrite Hld in Hld'. injection Hld' as <-.
  unfold snapshot, js_or. cbn.
  split; [by destruct (to_boolean (field ld "city")) eqn:E|].
  split; [by destruct (to_boolean (field ld "countryName")) eqn:E|].
  split; intros c Hc Ht; apply get_prop_Normal in Hc as [_ <-];
    by rewrite Ht.
Qed.

Lemma location_never_blank_witness :
  to_boolean (name (location (snapshot berlin_current berlin_forecast
                                (obj [("city", VNum 22);
                                      ("countryName", VNum 0)])))) = true
  ∧ country (location (snapshot berlin_current berlin_forecast
                         (obj [("city", VNum 22);
                               ("countryName", VNum 0)]))) = VStr "Unknown"
  ∧ name (location (snapshot berlin_current berlin_forecast
                      (obj [("city", VNum 22);
                            ("countryName", VNum 0)]))) = VNum 22.
Proof.
  destruct (location_never_blank berlin_numeric_city 52.52 13.405
              (obj [("city", VNum 22); ("countryName", VNum 0)])
              (snapshot berlin_current berlin_forecast
                 (obj [("city", VNum 22); ("countryName", VNum 0)])))
    as (Hname & _ & Hcity & _);
    try (vm_compute; reflexivity).
  split; [exact Hname|]. split; [vm_compute; reflexivity|].
  apply Hcity; vm_compute; reflexivity.
Defined.

(** X9. The [daily] block that the current-weather URL asks for is never
    read: adding or replacing a [daily] property in the current-weather body
    changes nothing in the state the aggregation leaves. *)
Theorem current_weather_daily_is_ignored
    (h1 h2 : Host) (lat lon : float) (m : gmap string value) (v : value) :
  usable_body (fetch h1 (current_weather_url h1 lat lon)) = Some (VObj m) →
  usable_body (fetch h2 (current_weather_url h2 lat lon))
    = Some (VObj (<["daily" := v]> m)) →
  fetch h1 (forecast_url h1 lat lon) = fetch h2 (forecast_url h2 lat lon) →
  fetch h1 (location_url h1 lat lon) = fetch h2 (location_url h2 lat lon) →
  ui (aggregate h1 lat lon) = ui (aggregate h2 lat lon).
Proof.
  intros Ha1 Ha2 Hb Hc. apply aggregate_same_merge.
  unfold merged. rewrite Ha1, Ha2, Hb, Hc. cbn.
  destruct (usable_body (fetch h2 (forecast_url h2 lat lon))) as [fd|];
    [|done]. cbn.
  destruct (usable_body (fetch h2 (location_url h2 lat lon))) as [ld|];
    [|done]. cbn.
  rewrite !mappedWeatherData_closed_form.
  unfold merge_faults, snapshot.
  by rewrite !(field_insert_ne m "daily" "current_weather").
Qed.

Lemma current_weather_daily_is_ignored_witness :
  ui (aggregate berlin 52.52 13.405)
  = ui (aggregate berlin_verbose_current 52.52 13.405).
Proof.
  apply (current_weather_daily_is_ignored berlin berlin_verbose_current
           52.52 13.405
           (list_to_map
              [("current_weather",
                obj [("temperature", VNum 18.4); ("windspeed", VNum 3.1)])])
           (obj [("time", VArr [VStr "1999-01-01"])]));
    vm_compute; reflexivity.
Defined.

(** X10. The [weathercode] series that the forecast URL asks for is never
    read: adding or replacing [weathercode] in the [hourly] block of the
    forecast body changes nothing in the state the aggregation leaves, so
    no condition text ever depends on it. *)
Theorem hourly_weathercode_is_ignored
    (h1 h2 : Host) (lat lon : float) (m hr : gmap string value)
    (code : value) :
  usable_body (fetch h1 (forecast_url h1 lat lon)) = Some (VObj m) →
  m !! "hourly" = Some (VObj hr) →
  usable_body (fetch h2 (forecast_url h2 lat lon))
    = Some (VObj (<["hourly" := VObj (<["weathercode" := code]> hr)]> m)) →
  fetch h1 (current_weather_url h1 lat lon)
    = fetch h2 (current_weather_url h2 lat lon) →
  fetch h1 (location_url h1 lat lon) = fetch h2 (location_url h2 lat lon) →
  ui (aggregate h1 lat lon) = ui (aggregate h2 lat lon).
Proof.
  intros Hb1 Hhr Hb2 Ha Hc. apply aggregate_same_merge.
  unfold merged. rewrite Hb1, Hb2, Ha, Hc. cbn.
  destruct (usable_body (fetch h2 (current_weather_url h2 lat lon)))
    as [cw|]; [|done]. cbn.
  destruct (usable_body (fetch h2 (location_url h2 lat lon))) as [ld|];
    [|done]. cbn.
  rewrite !mappedWeatherData_closed_form.
  unfold merge_faults, snapshot.
  rewrite !(field_insert_ne m "hourly" "daily") by done.
  rewrite !field_insert_eq.
  assert (field (VObj m) "hourly" = VObj hr) as ->
    by (unfold field; by rewrite Hhr).
  by rewrite !(field_insert_ne hr "weathercode") by done.
Qed.

Lemma hourly_weathercode_is_ignored_witness :
  ui (aggregate berlin 52.52 13.405)
  = ui (aggregate berlin_with_weathercode 52.52 13.405).
Proof.
  apply (hourly_weathercode_is_ignored berlin berlin_with_weathercode
           52.52 13.405
           (list_to_map [("daily", berlin_daily); ("hourly", berlin_hourly)])
           (list_to_map
              [("time", VArr [VStr "2024-06-01T00:00";
                              VStr "2024-06-01T01:00"]);
               ("temperature_2m", VArr [VNum 16; VNum 15])])
           (VArr [VNum 61; VNum 3]));
    vm_compute; reflexivity.
Defined.

(** ** The dashboard *)

Lemma leb_nan_l (x y : float) :
  PrimFloat.is_nan x = true → PrimFloat.leb x y = false.
Proof.
  unfold PrimFloat.is_nan. rewrite FloatAxioms.eqb_spec, FloatAxioms.leb_spec.
  destruct (Prim2SF x) as [s|s| |s mx ex]; cbn; try done.
  - by destruct s.
  - unfold SpecFloat.SFeqb. cbn.
    rewrite Z.compare_refl.
    replace (PosDef.Pos.compare_cont Eq mx mx) with Eq
      by (symmetry; apply Pos.compare_refl).
    by destruct s.
Qed.

Lemma leb_nan_r (x y : float) :
  PrimFloat.is_nan y = true → PrimFloat.leb x y = false.
Proof.
  unfold PrimFloat.is_nan. rewrite FloatAxioms.eqb_spec, FloatAxioms.leb_spec.
  destruct (Prim2SF y) as [s|s| |s my ey]; cbn; try done.
  - by destruct s.
  - intros _. unfold SpecFloat.SFleb.
    by destruct (Prim2SF x) as [?|?| |? ? ?].
  - unfold SpecFloat.SFeqb. cbn.
    rewrite Z.compare_refl.
    replace (PosDef.Pos.compare_cont Eq my my) with Eq
      by (symmetry; apply Pos.compare_refl).
    by destruct s.
Qed.

Lemma dashboard_first_day (rt : Runtime) (h : Host) (w : WeatherData)
    (day : DailyEntry) :
  daily (forecast w) !! 0 = Some day →
  ∃ d, dashboard rt h w = Normal d
       ∧ head_high d = temperatureMax day
       ∧ head_low d = temperatureMin day
       ∧ hour_cells d
         = imap (λ index hour,
                   {| hour_key := index;
                      hour_label := time_label rt (time hour);
                      hour_temperature := hourly_temperature hour |})
                (hourly (forecast w))
       ∧ day_rows d
         = imap (λ index day,
                   {| day_key := index;
                      day_label := weekday_label rt (date day);
                      day_max := temperatureMax day;
                      day_min := temperatureMin day |})
                (take 7 (daily (forecast w)))
       ∧ sun_icon d
         = (if isDayTime rt h (sunrise (astronomy w)) (sunset (astronomy w))
            then IconSun else IconMoon).
Proof.
  intros Hday. unfold dashboard, first_day. rewrite Hday. cbn.
  eexists. split; [done|]. done.
Qed.

Lemma dashboard_Normal_inv (rt : Runtime) (h : Host) (w : WeatherData)
    (d : Dashboard) :
  dashboard rt h w = Normal d → ∃ day, daily (forecast w) !! 0 = Some day.
Proof.
  unfold dashboard, first_day.
  destruct (daily (forecast w) !! 0) as [day|]; [by exists day|done].
Qed.


(** X12. The 7-day list shows the first seven daily entries and no more:
    it has [min 7 n] rows for [n] entries, and row [i] carries key [i], the
    weekday of entry [i] and that entry's maximum and minimum. *)
Theorem seven_day_list_is_capped (rt : Runtime) (h : Host) (w : WeatherData)
    (d : Dashboard) :
  dashboard rt h w = Normal d →
  length (day_rows d) = (7 `min` length (daily (forecast w)))%nat
  ∧ (∀ i day, (i < 7)%nat → daily (forecast w) !! i = Some day →
       day_rows d !! i
       = Some {| day_key := i;
                 day_label := weekday_label rt (date day);
                 day_max := temperatureMax day;
                 day_min := temperatureMin day |})
  ∧ (∀ i, (7 ≤ i)%nat → day_rows d !! i = None).
Proof.
  intros Hd.
  destruct (dashboard_Normal_inv rt h w d Hd) as [day0 H0].
  destruct (dashboard_first_day rt h w day0 H0)
    as (d' & Hd' & _ & _ & _ & Hrows & _).
  rewrite Hd in Hd'. injection Hd' as <-.
  rewrite Hrows. split; [|split].
  - by rewrite length_imap, length_take.
  - intros i day Hi Hday.
    by rewrite list_lookup_imap, lookup_take_lt, Hday.
  - intros i Hi. apply lookup_ge_None_2.
    rewrite length_imap, length_take. lia.
Qed.

Lemma seven_day_list_is_capped_witness :
  ∃ d, dashboard test_runtime berlin nine_day_snapshot = Normal d
       ∧ length (daily (forecast nine_day_snapshot)) = 9
       ∧ length (day_rows d) = 7
       ∧ day_rows d !! 8 = None.
Proof.
  destruct (dashboard_first_day test_runtime berlin nine_day_snapshot
              {| date := VStr "2024-06-01";
                 temperatureMax := VNum 20;
                 temperatureMin := VNum 10;
                 daily_condition := VStr "Clear" |} eq_refl)
    as (d & Hd & _).
  exists d. split; [exact Hd|]. split; [reflexivity|].
  destruct (seven_day_list_is_capped test_runtime berlin nine_day_snapshot
              d Hd) as (Hlen & _ & Hpast).
  split; [exact Hlen|]. apply Hpast. lia.
Defined.

(** X13. The hourly strip shows every hourly entry, in order and without a
    cap: cell [i] carries key [i], the time label of entry [i] and that
    entry's temperature. *)
Theorem hourly_strip_shows_every_entry (rt : Runtime) (h : Host)
    (w : WeatherData) (d : Dashboard) :
  dashboard rt h w = Normal d →
  length (hour_cells d) = length (hourly (forecast w))
  ∧ (∀ i hour, hourly (forecast w) !! i = Some hour →
       hour_cells d !! i
       = Some {| hour_key := i;
                 hour_label := time_label rt (time hour);
                 hour_temperature := hourly_temperature hour |}).
Proof.
  intros Hd.
  destruct (dashboard_Normal_inv rt h w d Hd) as [day0 H0].
  destruct (dashboard_first_day rt h w day0 H0)
    as (d' & Hd' & _ & _ & Hcells & _).
  rewrite Hd in Hd'. injection Hd' as <-.
  rewrite Hcells. split.
  - by rewrite length_imap.
  - intros i hour Hi. by rewrite list_lookup_imap, Hi.
Qed.

Lemma hourly_strip_shows_every_entry_witness :
  ∃ d, dashboard test_runtime berlin
         (snapshot berlin_current berlin_forecast berlin_geocode) = Normal d
       ∧ length (hour_cells d) = 2
       ∧ hour_cells d !! 1
         = Some {| hour_key := 1;
                   hour_label := "Invalid Date";
                   hour_temperature := VNum 15 |}.
Proof.
  destruct (dashboard_first_day test_runtime berlin
              (snapshot berlin_current berlin_forecast berlin_geocode)
              {| date := VStr "2024-06-01";
                 temperatureMax := VNum 22;
                 temperatureMin := VNum 14;
                 daily_condition := VStr "Clear" |} eq_refl)
    as (d & Hd & _).
  exists d. split; [exact Hd|].
  destruct (hourly_strip_shows_every_entry test_runtime berlin
              (snapshot berlin_current berlin_forecast berlin_geocode)
              d Hd) as (Hlen & Hcell).
  split; [exact Hlen|].
  exact (Hcell 1 {| time := VStr "2024-06-01T01:00";
                    hourly_temperature := VNum 15;
                    hourly_condition := VStr "Clear" |} eq_refl).
Defined.

(** X14. When the sunrise or the sunset of the snapshot is not a valid
    date (its time value is NaN), [isDayTime] is false at every time of
    day and the dashboard shows the moon. *)
Theorem invalid_sun_times_show_the_moon (rt : Runtime) (h : Host)
    (w : WeatherData) (d : Dashboard) :
  PrimFloat.is_nan (date_value rt (sunrise (astronomy w))) = true
  ∨ PrimFloat.is_nan (date_value rt (sunset (astronomy w))) = true →
  dashboard rt h w = Normal d →
  isDayTime rt h (sunrise (astronomy w)) (sunset (astronomy w)) = false
  ∧ sun_icon d = IconMoon.
Proof.
  intros Hnan Hd.
  assert (isDayTime rt h (sunrise (astronomy w)) (sunset (astronomy w))
          = false) as Hday.
  { unfold isDayTime. destruct Hnan as [Hnan|Hnan].
    - by rewrite (leb_nan_l _ _ Hnan).
    - by rewrite (leb_nan_r _ _ Hnan), andb_false_r. }
  split; [exact Hday|].
  destruct (dashboard_Normal_inv rt h w d Hd) as [day0 H0].
  destruct (dashboard_first_day rt h w day0 H0)
    as (d' & Hd' & _ & _ & _ & _ & Hicon).
  rewrite Hd in Hd'. injection Hd' as <-.
  by rewrite Hicon, Hday.
Qed.

Lemma invalid_sun_times_show_the_moon_witness :
  ∃ d, dashboard test_runtime berlin
         (snapshot berlin_current sunless_forecast berlin_geocode) = Normal d
       ∧ isDayTime test_runtime berlin
           (sunrise (astronomy (snapshot berlin_current sunless_forecast
                                  berlin_geocode)))
           (sunset (astronomy (snapshot berlin_current sunless_forecast
                                 berlin_geocode))) = false
       ∧ sun_icon d = IconMoon.
Proof.
  destruct (dashboard_first_day test_runtime berlin
              (snapshot berlin_current sunless_forecast berlin_geocode)
              {| date := VStr "2024-06-01";
                 temperatureMax := VNum 22;
                 temperatureMin := VNum 14;
                 daily_condition := VStr "Clear" |} eq_refl)
    as (d & Hd & _).
  exists d. split; [exact Hd|].
  apply (invalid_sun_times_show_the_moon test_runtime berlin
           (snapshot berlin_current sunless_forecast berlin_geocode) d);
    [left; vm_compute; reflexivity | exact Hd].
Defined.

(** ** From the answers to the screen *)

(** X15. What the dashboard shows for the fields without an upstream
    source does not depend on any answer: the condition line is "Clear",
    the Humidity and Pressure tiles print the number 0 with their unit, the
    UV tile holds 0, and the Dawn and Dusk labels are the time label of the
    empty string. *)
Theorem unsupported_fields_on_screen (rt : Runtime) (h : Host)
    (lat lon : float) (w : WeatherData) (d : Dashboard) :
  weatherData (ui (aggregate h lat lon)) = Some w →
  dashboard rt h w = Normal d →
  head_condition d = VStr "Clear"
  ∧ tiles d !! 1 = Some {| tile_key := 1;
                           tile_title := "Humidity";
                           tile_icon := IconDroplets;
                           tile_value := VStr (to_string rt (VNum 0) ++ "%") |}
  ∧ tiles d !! 2 = Some {| tile_key := 2;
                           tile_title := "UV Index";
                           tile_icon := IconSun;
                           tile_value := VNum 0 |}
  ∧ tiles d !! 3 = Some {| tile_key := 3;
                           tile_title := "Pressure";
                           tile_icon := IconGauge;
                           tile_value :=
                             VStr (to_string rt (VNum 0) ++ " hPa") |}
  ∧ dawn_label d = time_label rt (VStr "")
  ∧ dusk_label d = time_label rt (VStr "").
Proof.
  intros Hw Hd.
  apply aggregate_ready_inv in Hw as (cw & fd & ld & _ & _ & _ & _ & ->).
  destruct (dashboard_Normal_inv _ _ _ _ Hd) as [day0 H0].
  unfold dashboard, first_day in Hd. rewrite H0 in Hd. cbn in Hd.
  by injection Hd as <-.
Qed.

Lemma unsupported_fields_on_screen_witness :
  ∃ d, dashboard test_runtime berlin
         (snapshot berlin_current berlin_forecast berlin_geocode) = Normal d
       ∧ head_condition d = VStr "Clear"
       ∧ tiles d !! 1 = Some {| tile_key := 1;
                                tile_title := "Humidity";
                                tile_icon := IconDroplets;
                                tile_value := VStr "0%" |}
       ∧ dawn_label d = "Invalid Date".
Proof.
  destruct (dashboard_first_day test_runtime berlin
              (snapshot berlin_current berlin_forecast berlin_geocode)
              {| date := VStr "2024-06-01";
                 temperatureMax := VNum 22;
                 temperatureMin := VNum 14;
                 daily_condition := VStr "Clear" |} eq_refl)
    as (d & Hd & _).
  exists d. split; [exact Hd|].
  destruct (unsupported_fields_on_screen test_runtime berlin 52.52 13.405
              (snapshot berlin_current berlin_forecast berlin_geocode) d)
    as (Hcond & Hhum & _ & _ & Hdawn & _);
    [vm_compute; reflexivity | exact Hd |].
  split; [exact Hcond|]. split; [exact Hhum|exact Hdawn].
Defined.

(** X16. A forecast that covers no day is merged, not rejected: with an
    empty [daily.time] array the aggregation succeeds whether or not the
    daily temperature arrays are there, [forecast.daily] is empty, the
    guards let the snapshot through, and building the markup throws a
    [TypeError]. *)
Theorem empty_daily_time_breaks_the_render
    (rt : Runtime) (h : Host) (lat lon : float) (cw fd ld d hr : value)
    (c l : gmap string value) (hs temps rises sets : list value) :
  usable_body (fetch h (current_weather_url h lat lon)) = Some cw →
  usable_body (fetch h (forecast_url h lat lon)) = Some fd →
  usable_body (fetch h (location_url h lat lon)) = Some ld →
  get_prop cw "current_weather" = Normal (VObj c) →
  ld = VObj l →
  get_prop fd "daily" = Normal d →
  get_prop d "time" = Normal (VArr []) →
  get_prop d "sunrise" = Normal (VArr rises) →
  get_prop d "sunset" = Normal (VArr sets) →
  get_prop fd "hourly" = Normal hr →
  get_prop hr "time" = Normal (VArr hs) →
  get_prop hr "temperature_2m" = Normal (VArr temps) →
  ∃ w, ui (aggregate h lat lon) = ready w
       ∧ daily (forecast w) = []
       ∧ render (ui (aggregate h lat lon)) = ShowDashboard w
       ∧ WeatherApp rt h (ui (aggregate h lat lon)) = Throw TypeError.
Proof.
  intros Ha Hb Hc Hcw -> Hd Ht Hr Hs Hh Hht Htemp.
  apply get_prop_Normal in Hcw as [Hcwn Hcw], Hd as [Hfdn ->].
  apply get_prop_Normal in Ht as [Hdn Ht], Hr as [_ Hr], Hs as [_ Hs].
  apply get_prop_Normal in Hh as [_ ->], Hht as [Hhn Hht], Htemp as [_ Htemp].
  assert (merge_faults cw fd (VObj l) = false) as Hm.
  { unfold merge_faults.
    rewrite Hcwn, Hfdn, Hdn, Hhn, <- Hcw, <- Ht, <- Hr, <- Hs, <- Hht,
      <- Htemp.
    cbn. by rewrite !andb_false_r. }
  exists (snapshot cw fd (VObj l)).
  rewrite aggregate_ui, (merged_snapshot h lat lon cw fd (VObj l) Ha Hb Hc), Hm.
  assert (daily (forecast (snapshot cw fd (VObj l))) = []) as Hdays.
  { unfold snapshot. cbn. by rewrite <- Ht. }
  split; [done|]. split; [done|]. split; [done|].
  unfold WeatherApp.
  change (render (ready (snapshot cw fd (VObj l))))
    with (ShowDashboard (snapshot cw fd (VObj l))).
  unfold dashboard, first_day. by rewrite Hdays.
Qed.

Lemma empty_daily_time_breaks_the_render_witness :
  ∃ w, ui (aggregate berlin_no_days 52.52 13.405) = ready w
       ∧ daily (forecast w) = []
       ∧ render (ui (aggregate berlin_no_days 52.52 13.405)) = ShowDashboard w
       ∧ WeatherApp test_runtime berlin_no_days
           (ui (aggregate berlin_no_days 52.52 13.405)) = Throw TypeError.
Proof.
  apply (empty_daily_time_breaks_the_render test_runtime berlin_no_days
           52.52 13.405 berlin_current
           (obj [("daily", empty_daily); ("hourly", berlin_hourly)])
           berlin_geocode empty_daily berlin_hourly
           (list_to_map [("temperature", VNum 18.4);
                         ("windspeed", VNum 3.1)])
           (list_to_map [("city", VStr "Berlin");
                         ("countryName", VStr "Germany")])
           [VStr "2024-06-01T00:00"; VStr "2024-06-01T01:00"]
           [VNum 16; VNum 15] [] []);
    vm_compute; reflexivity.
Defined.

